(** * blink-camera-system: a shallow embedding of the controller

    The development follows the TypeScript sources:
    - [create-blink-urls.ts]   the URL resolver,
    - [guid.ts]                the notification key,
    - [blink-device.ts]        the device record ([BlinkDevice]): its
                               constructor, accessors and [update], and
                               the requests [snapPicture] and
                               [imageRefresh],
    - [blink-camera-system.ts] the session engine ([_getAuthToken],
                               [_setupWithToken]) and the controller
                               ([init], [getIDs], [getCameras],
                               [getSummary], [getVideos],
                               [getLastMotions], [isArmed], [isOnline],
                               [setArmed], the update step of
                               [refresh]).

    Promises are modelled by a state-and-environment monad: a computation
    reads and writes the controller object, talks to the transport (every
    request is appended to a trace and answered from a script), and ends
    by returning, by throwing, or by never settling. The [debug] output
    on the console is not part of the model. *)

From Stdlib Require Import ZArith Ascii String List DecimalString.
From Stdlib Require Decimal DecimalPos.
From stdpp Require Import base option list strings gmap.

Local Open Scope Z_scope.
Local Open Scope string_scope.

(** ** JavaScript values and coercions *)

Module Js.

(** The runtime values a field typed [string] may actually hold. *)
Inductive value :=
| VUndefined
| VNull
| VBool (b : bool)
| VNum (n : Z)
| VStr (s : string).

Inductive type_tag := TUndefined | TObject | TBoolean | TNumber | TString.

Definition typeof (v : value) : type_tag :=
  match v with
  | VUndefined => TUndefined
  | VNull => TObject
  | VBool _ => TBoolean
  | VNum _ => TNumber
  | VStr _ => TString
  end.

Definition str_truthy (s : string) : bool :=
  match s with EmptyString => false | _ => true end.

(** ToBoolean *)
Definition truthy (v : value) : bool :=
  match v with
  | VUndefined | VNull => false
  | VBool b => b
  | VNum n => negb (Z.eqb n 0)
  | VStr s => str_truthy s
  end.

(** ToBoolean on [string | null]. *)
Definition opt_truthy (o : option string) : bool :=
  match o with Some s => str_truthy s | None => false end.

(** Number::toString on an integer (ids and pages: well below [1e21],
    where the decimal notation is used). *)
Definition num_to_string (n : Z) : string :=
  NilZero.string_of_int (Z.to_int n).

(** ToString inside a template literal. *)
Definition to_string (v : value) : string :=
  match v with
  | VUndefined => "undefined"
  | VNull => "null"
  | VBool true => "true"
  | VBool false => "false"
  | VNum n => num_to_string n
  | VStr s => s
  end.

(** [`${x}`] for [x : number | null] and [x : string | null]. *)
Definition tpl_num (o : option Z) : string :=
  match o with Some n => num_to_string n | None => "null" end.

Definition tpl_str (o : option string) : string :=
  match o with Some s => s | None => "null" end.

(** *** ToNumber on strings, for the loose equality [==]

    [string_to_integer s] is the integer that [ToNumber(s)] denotes, when
    it denotes one: surrounding (ASCII) white space is dropped, the empty
    string is [0], [0x]/[0o]/[0b] literals and signed decimal literals
    with a fraction and an exponent are read. [None] stands for [NaN],
    the infinities and the non-integers, none of which is [==] to an
    id. *)

Definition code (c : ascii) : Z := Z.of_nat (nat_of_ascii c).

Definition is_ws (c : ascii) : bool :=
  Z.eqb (code c) 32 || (Z.leb 9 (code c) && Z.leb (code c) 13).

Fixpoint drop_ws (s : list ascii) : list ascii :=
  match s with
  | c :: s' => if is_ws c then drop_ws s' else s
  | [] => []
  end.

Definition trim (s : list ascii) : list ascii :=
  rev (drop_ws (rev (drop_ws s))).

Definition hex_val (c : ascii) : option Z :=
  let n := code c in
  if Z.leb 48 n && Z.leb n 57 then Some (n - 48)%Z
  else if Z.leb 97 n && Z.leb n 102 then Some (n - 87)%Z
  else if Z.leb 65 n && Z.leb n 70 then Some (n - 55)%Z
  else None.

Definition digit_in (base : Z) (c : ascii) : option Z :=
  match hex_val c with
  | Some d => if Z.ltb d base then Some d else None
  | None => None
  end.

(** The value of a string made of digits only. *)
Fixpoint digits_val (base acc : Z) (s : list ascii) : option Z :=
  match s with
  | [] => Some acc
  | c :: s' =>
      match digit_in base c with
      | Some d => digits_val base (acc * base + d)%Z s'
      | None => None
      end
  end.

Definition nonempty_digits (base : Z) (s : list ascii) : option Z :=
  match s with [] => None | _ => digits_val base 0 s end.

(** The longest prefix of decimal digits, and the rest. *)
Fixpoint span_digits (s : list ascii) : list ascii * list ascii :=
  match s with
  | c :: s' =>
      match digit_in 10 c with
      | Some _ => let '(ds, r) := span_digits s' in (c :: ds, r)
      | None => ([], s)
      end
  | [] => ([], [])
  end.

Definition signed (s : list ascii) : bool * list ascii :=
  match s with
  | "+"%char :: r => (false, r)
  | "-"%char :: r => (true, r)
  | _ => (false, s)
  end.

Definition apply_sign (neg : bool) (n : Z) : Z := if neg then (- n)%Z else n.

(** ExponentPart, or nothing. *)
Definition parse_exponent (s : list ascii) : option Z :=
  match s with
  | [] => Some 0%Z
  | c :: r =>
      if Ascii.eqb c "e" || Ascii.eqb c "E" then
        let '(neg, ds) := signed r in
        apply_sign neg <$> nonempty_digits 10 ds
      else None
  end.

(** StrUnsignedDecimalLiteral, [Infinity] apart. *)
Definition parse_decimal (s : list ascii) : option Z :=
  let '(i, r1) := span_digits s in
  let '(f, r2) := match r1 with
                  | "."%char :: r => span_digits r
                  | _ => ([], r1)
                  end in
  match (i ++ f)%list with
  | [] => None
  | m =>
      match digits_val 10 0 m, parse_exponent r2 with
      | Some mant, Some e =>
          let k := (e - Z.of_nat (length f))%Z in
          if Z.leb 0 k then Some (mant * 10 ^ k)%Z
          else if Z.eqb (mant mod 10 ^ (- k)) 0 then Some (mant / 10 ^ (- k))%Z
          else None
      | _, _ => None
      end
  end.

Definition string_to_integer (s : string) : option Z :=
  match trim (list_ascii_of_string s) with
  | [] => Some 0%Z
  | "0"%char :: "x"%char :: r | "0"%char :: "X"%char :: r => nonempty_digits 16 r
  | "0"%char :: "o"%char :: r | "0"%char :: "O"%char :: r => nonempty_digits 8 r
  | "0"%char :: "b"%char :: r | "0"%char :: "B"%char :: r => nonempty_digits 2 r
  | t => let '(neg, r) := signed t in apply_sign neg <$> parse_decimal r
  end.

Definition bool_to_number (b : bool) : Z := if b then 1%Z else 0%Z.

Definition opt_Z_eqb (o : option Z) (n : Z) : bool :=
  match o with Some m => Z.eqb m n | None => false end.

(** [n == v] for a number [n]. *)
Definition loose_eq_num (n : Z) (v : value) : bool :=
  match v with
  | VNum m => Z.eqb n m
  | VStr s => opt_Z_eqb (string_to_integer s) n
  | VBool b => Z.eqb n (bool_to_number b)
  | VUndefined | VNull => false
  end.

(** [s == v] for a string [s]. *)
Definition loose_eq_str (s : string) (v : value) : bool :=
  match v with
  | VStr t => String.eqb s t
  | VNum m => opt_Z_eqb (string_to_integer s) m
  | VBool b => opt_Z_eqb (string_to_integer s) (bool_to_number b)
  | VUndefined | VNull => false
  end.

End Js.

(** ** Regular expressions

    The fragment of ECMAScript patterns the controller uses: a sequence of
    atoms, each a literal character, a negated class under a greedy [+],
    or the end-of-input assertion [$] (no [m] flag). *)

Module Regex.

Inductive atom :=
| Lit (c : ascii)
| PlusNotIn (cs : list ascii)
| EndOfInput.

Definition pattern := list atom.

Definition in_class (cs : list ascii) (c : ascii) : bool :=
  existsb (Ascii.eqb c) cs.

(** [plus_not_in cs k s]: one or more characters outside [cs], longest
    first, backtracking into the continuation [k]; the result is the
    number of characters consumed by the whole match. *)
Fixpoint plus_not_in (cs : list ascii) (k : list ascii -> option nat)
    (s : list ascii) : option nat :=
  match s with
  | [] => None
  | c :: s' =>
      if in_class cs c then None
      else match plus_not_in cs k s' with
           | Some n => Some (S n)
           | None => S <$> k s'
           end
  end.

(** [match_here p s]: length of the match of [p] anchored at the start
    of [s], if there is one. *)
Fixpoint match_here (p : pattern) (s : list ascii) : option nat :=
  match p with
  | [] => Some 0%nat
  | Lit c :: p' =>
      match s with
      | c' :: s' => if Ascii.eqb c c' then S <$> match_here p' s' else None
      | [] => None
      end
  | PlusNotIn cs :: p' => plus_not_in cs (match_here p') s
  | EndOfInput :: p' =>
      match s with
      | [] => match_here p' []
      | _ :: _ => None
      end
  end.

(** [String.prototype.replace] with a non-global pattern: the leftmost
    match is replaced, and a string without a match is returned as is. *)
Fixpoint replace_first (p : pattern) (repl : list ascii) (s : list ascii)
    : list ascii :=
  match match_here p s with
  | Some n => (repl ++ drop n s)%list
  | None =>
      match s with
      | [] => []
      | c :: s' => c :: replace_first p repl s'
      end
  end.

Definition replace (p : pattern) (repl : string) (s : string) : string :=
  string_of_list_ascii
    (replace_first p (list_ascii_of_string repl) (list_ascii_of_string s)).

(** [/\.[^.]+$]/], the pattern written in [getLastMotions]: a dot, one or
    more non-dots, the end of input, and then a literal closing bracket. *)
Definition ext_pattern : pattern :=
  [Lit "."; PlusNotIn ["."%char]; EndOfInput; Lit "]"].

(** [/\.[^.]+$/], the same pattern without the stray bracket. *)
Definition ext_pattern_unbracketed : pattern :=
  [Lit "."; PlusNotIn ["."%char]; EndOfInput].

End Regex.


(** ** Constants ([constants.ts]) *)

(** [constants.ts] is not among the sources: the four constants the
    controller imports are parameters of the development. *)
Class Constants := {
  BLINK_URL : string;
  LOGIN_URL : string;
  LOGIN_URL_2FA : string;
  SIZE_NOTIFICATION_KEY : nat;
}.

(** ** Wire types ([types.ts]) *)

Abbreviation headers := (gmap string string).

Module BlinkDeviceResponse.
Record t := {
  id : Z;
  name : string;
  type : string;
  network_id : Z;
  region_id : option string;
  status : string;
  enabled : bool;
  thumbnail : string;
  signals : option (gmap string Z);
  battery : Z;
  updated_at : Z;
}.

(** [device.region_id = v] *)
Definition set_region_id (v : option string) (d : t) : t :=
  {| id := id d; name := name d; type := type d; network_id := network_id d;
     region_id := v; status := status d; enabled := enabled d;
     thumbnail := thumbnail d; signals := signals d; battery := battery d;
     updated_at := updated_at d |}.
End BlinkDeviceResponse.

Module BlinkSyncModule.
Inductive status_t := online | offline.
Record t := { id : Z; network_id : Z; status : status_t }.
End BlinkSyncModule.

Module BlinkNetwork.
Record t := { id : Z; name : string; armed : bool }.
End BlinkNetwork.

Module SummaryResponse.
Record t := {
  networks : list BlinkNetwork.t;
  sync_modules : list BlinkSyncModule.t;
  cameras : list BlinkDeviceResponse.t;
  owls : list BlinkDeviceResponse.t;
}.
End SummaryResponse.

Module VideoResponse.
Record t := {
  camera_id : Z;
  type : string;
  video_url : string;
  created_at : Z;
}.
End VideoResponse.

Module MotionEvent.
Record t := { video : string; image : string; time : Z }.
End MotionEvent.

(** The login document: [account] and [auth.token]. *)
Module LoginResponse.
Record t := {
  account_id : Z;
  region : option string;
  tier : string;
  account_verification_required : bool;
  client_verification_required : bool;
  client_id : Z;
  token : string;
}.
End LoginResponse.

(** The body posted to the login endpoint. *)
Module LoginRequest.
Record t := {
  email : string;
  password : string;
  notification_key : string;
  unique_id : string;
  app_version : string;
  client_name : string;
  client_type : string;
  device_identifier : string;
  device_name : string;
  os_version : string;
  reauth : string;
}.
End LoginRequest.

(** ** The URL resolver ([create-blink-urls.ts]) *)

Module BlinkUrls.
Record t := {
  baseUrl : string;
  networkUrl : string;
  armUrl : string;
  videoUrl : string;
  homeUrl : string;
}.

(** The initial value of the controller's [urls] field. *)
Definition empty : t :=
  {| baseUrl := ""; networkUrl := ""; armUrl := ""; videoUrl := "";
     homeUrl := "" |}.
End BlinkUrls.

(** The parameters are typed [number] and [string], and the controller
    passes [this._accountId!] and [this._regionId!], either of which may
    still be [null]; the template literals then print ["null"]. *)
Definition createBlinkUrls `{Constants}
    (accountId : option Z) (regionId : option string) : BlinkUrls.t :=
  let baseUrl := "https://rest-" +:+ Js.tpl_str regionId +:+ "." +:+ BLINK_URL in
  {| BlinkUrls.baseUrl := baseUrl;
     BlinkUrls.networkUrl := baseUrl +:+ "/network/";
     BlinkUrls.armUrl :=
       baseUrl +:+ "/api/v1/accounts/" +:+ Js.tpl_num accountId +:+ "/networks/";
     BlinkUrls.videoUrl :=
       baseUrl +:+ "/api/v1/accounts/" +:+ Js.tpl_num accountId +:+ "/media/changed";
     BlinkUrls.homeUrl :=
       baseUrl +:+ "/api/v3/accounts/" +:+ Js.tpl_num accountId +:+ "/homescreen" |}.

(** ** The device record ([blink-device.ts]) *)

Module BlinkDevice.
Import BlinkUrls.

Record t := {
  urls : BlinkUrls.t;
  _data : BlinkDeviceResponse.t;
  _thumbUrl : string;
  _clipUrl : string;
  _motion : option MotionEvent.t;     (* [{}] until a motion is cached *)
  _authHeader : option headers;
  _imageLink : option string;
  _armLink : option string;
}.

Definition new (data : BlinkDeviceResponse.t) (urls : BlinkUrls.t)
    (authHeader : option headers) : t :=
  let nid := Js.num_to_string (BlinkDeviceResponse.network_id data) in
  let did := Js.num_to_string (BlinkDeviceResponse.id data) in
  let networkIdUrl := networkUrl urls +:+ nid in
  {| urls := urls;
     _data := data;
     _thumbUrl := baseUrl urls +:+ BlinkDeviceResponse.thumbnail data +:+ ".jpg";
     _clipUrl := baseUrl urls +:+ BlinkDeviceResponse.thumbnail data +:+ ".mp4";
     _motion := None;
     _authHeader := authHeader;
     _armLink := Some (networkIdUrl +:+ "/camera/" +:+ did +:+ "/");
     _imageLink :=
       if String.eqb (BlinkDeviceResponse.type data) "owl" then
         Some ((armUrl urls +:+ nid) +:+ "/owls/" +:+ did +:+ "/thumbnail")
       else if String.eqb (BlinkDeviceResponse.type data) "doorbell" then
         Some ((armUrl urls +:+ nid) +:+ "/doorbells/" +:+ did +:+ "/thumbnail")
       else
         Some (networkIdUrl +:+ "/camera/" +:+ did +:+ "/thumbnail") |}.

(** Getters. *)
Definition id (d : t) : Z := BlinkDeviceResponse.id (_data d).
Definition thumbnail (d : t) : string := _thumbUrl d.
Definition clipUrl (d : t) : string := _clipUrl d.
Definition imageLink (d : t) : option string := _imageLink d.
Definition armLink (d : t) : option string := _armLink d.
Definition header (d : t) : option headers := _authHeader d.
Definition motion (d : t) : option MotionEvent.t := _motion d.
Definition networkId (d : t) : Z := BlinkDeviceResponse.network_id (_data d).

(** [set motion(value)] *)
Definition set_motion (value : MotionEvent.t) (d : t) : t :=
  {| urls := urls d; _data := _data d; _thumbUrl := _thumbUrl d;
     _clipUrl := _clipUrl d; _motion := Some value;
     _authHeader := _authHeader d; _imageLink := _imageLink d;
     _armLink := _armLink d |}.

Definition update (values : BlinkDeviceResponse.t) (d : t) : t :=
  {| urls := urls d;
     _data := values;
     _thumbUrl := baseUrl (urls d) +:+ BlinkDeviceResponse.thumbnail values +:+ ".jpg";
     _clipUrl := baseUrl (urls d) +:+ BlinkDeviceResponse.thumbnail values +:+ ".mp4";
     _motion := _motion d;
     _authHeader := _authHeader d;
     _imageLink := _imageLink d;
     _armLink := _armLink d |}.
End BlinkDevice.

(** ** The environment: transport, terminal, timers *)

Inductive method := GET | POST.

Inductive body :=
| NoBody
| EmptyObject
| LoginBody (data : LoginRequest.t)
| PinBody (pin : string).

Inductive event :=
| Request (m : method) (url : string) (hs : headers) (b : body)
| Timeout (ms : Z)
| Question (prompt : string).

(** What a 2xx response carries in [response.data]. *)
Inductive payload :=
| LoginData (r : LoginResponse.t)
| HomeData (account_id : Z) (summary : SummaryResponse.t)
| VideoData (videos : list VideoResponse.t)
| OtherData (raw : string).

(** The transport either answers with a 2xx status or raises; [data] is
    then the JSON rendering of [error.response?.data], if there is one. *)
Inductive answer :=
| Ok2xx (data : payload)
| Failure (data : option string).

Record World := {
  transport : list answer;   (* the answers still to come, in order *)
  stdin : list string;       (* the lines the user will type *)
  random : nat -> nat;       (* the draws of [Math.random], scaled to 16 *)
  drawn : nat;
  trace : list event;        (* what the program did, oldest first *)
}.

Definition log (e : event) (w : World) : World :=
  {| transport := transport w; stdin := stdin w; random := random w;
     drawn := drawn w; trace := (trace w ++ [e])%list |}.

Definition pop_transport (w : World) : World :=
  {| transport := tail (transport w); stdin := stdin w; random := random w;
     drawn := drawn w; trace := trace w |}.

Definition pop_stdin (w : World) : World :=
  {| transport := transport w; stdin := tail (stdin w); random := random w;
     drawn := drawn w; trace := trace w |}.

Definition draw (w : World) : World :=
  {| transport := transport w; stdin := stdin w; random := random w;
     drawn := S (drawn w); trace := trace w |}.

(** ** Promises *)

Inductive message :=
| Text (s : string)
| Data (p : payload).

Inductive exn :=
| BlinkException (msg : string)
| BlinkAuthenticationException (msg : message)
| TypeError (msg : string).

(** How an asynchronous call ends. [Unsettled] is a promise that is
    never resolved nor rejected: the environment stopped answering, or an
    exception was raised in a callback nobody awaits ([unhandled]). *)
Inductive outcome (A : Type) :=
| Returned (a : A)
| Thrown (e : exn)
| Unsettled (unhandled : option exn)
| OutOfFuel.
Arguments Returned {A} a.
Arguments Thrown {A} e.
Arguments Unsettled {A} unhandled.
Arguments OutOfFuel {A}.

Module Promise.
Section Promise.
Context {S : Type}.

Record Result (A : Type) := {
  out : outcome A;
  obj : S;         (* the object after the call *)
  env : World;     (* the environment after the call *)
}.
Arguments out {A} r.
Arguments obj {A} r.
Arguments env {A} r.

Definition M (A : Type) : Type := S -> World -> Result A.

Definition ret {A} (a : A) : M A :=
  fun s w => {| out := Returned a; obj := s; env := w |}.

Definition stop {A} (o : forall B, outcome B) : M A :=
  fun s w => {| out := o A; obj := s; env := w |}.

Definition throw {A} (e : exn) : M A := stop (fun B => Thrown e).
Definition unsettled {A} (e : option exn) : M A := stop (fun B => Unsettled e).
Definition out_of_fuel {A} : M A := stop (fun B => OutOfFuel).

Definition bind {A B} (m : M A) (k : A -> M B) : M B :=
  fun s w =>
    let r := m s w in
    match out r with
    | Returned a => k a (obj r) (env r)
    | Thrown e => {| out := Thrown e; obj := obj r; env := env r |}
    | Unsettled e => {| out := Unsettled e; obj := obj r; env := env r |}
    | OutOfFuel => {| out := OutOfFuel; obj := obj r; env := env r |}
    end.

(** [this] *)
Definition this : M S :=
  fun s w => {| out := Returned s; obj := s; env := w |}.

(** An assignment to fields of [this]. *)
Definition assign (f : S -> S) : M unit :=
  fun s w => {| out := Returned tt; obj := f s; env := w |}.

(** A request: it is sent, and the next answer of the transport is
    awaited. *)
Definition request (m : method) (url : string) (hs : headers) (b : body)
    : M (option string + payload) :=
  fun s w =>
    let w' := log (Request m url hs b) w in
    match transport w' with
    | [] => {| out := Unsettled None; obj := s; env := w' |}
    | Ok2xx d :: _ =>
        {| out := Returned (inr d); obj := s; env := pop_transport w' |}
    | Failure d :: _ =>
        {| out := Returned (inl d); obj := s; env := pop_transport w' |}
    end.

Definition request_get (url : string) (hs : headers) :=
  request GET url hs NoBody.

Definition request_post (url : string) (b : body) (hs : headers) :=
  request POST url hs b.

(** [setTimeout(..., ms)] followed by the callback. *)
Definition setTimeout (ms : Z) : M unit :=
  fun s w => {| out := Returned tt; obj := s; env := log (Timeout ms) w |}.

(** [rl.question(prompt, callback)]: the callback gets the next line. *)
Definition question (prompt : string) : M string :=
  fun s w =>
    let w' := log (Question prompt) w in
    match stdin w' with
    | [] => {| out := Unsettled None; obj := s; env := w' |}
    | line :: _ => {| out := Returned line; obj := s; env := pop_stdin w' |}
    end.

(** [Math.floor(Math.random() * 16)] *)
Definition random16 : M nat :=
  fun s w =>
    {| out := Returned (random w (drawn w) mod 16)%nat; obj := s; env := draw w |}.

(** The body of an [async] callback whose promise nobody awaits, inside
    [new Promise(resolve => ...)]: an exception raised there never
    reaches [resolve] or [reject], so the enclosing promise stays
    pending. *)
Definition detached {A} (m : M A) : M A :=
  fun s w =>
    let r := m s w in
    match out r with
    | Thrown e => {| out := Unsettled (Some e); obj := obj r; env := env r |}
    | _ => r
    end.

(** [xs.forEach(f)] *)
Fixpoint forEach {A} (f : A -> M unit) (xs : list A) : M unit :=
  match xs with
  | [] => ret tt
  | x :: xs' => bind (f x) (fun _ => forEach f xs')
  end.

(** A [forEach] whose callback updates a local variable. *)
Fixpoint fold {A B} (f : B -> A -> M B) (b : B) (xs : list A) : M B :=
  match xs with
  | [] => ret b
  | x :: xs' => bind (f b x) (fun b' => fold f b' xs')
  end.
End Promise.

Arguments Result : clear implicits.
Arguments M : clear implicits.
Arguments out {S A} r.
Arguments obj {S A} r.
Arguments env {S A} r.
End Promise.

Declare Scope promise_scope.
Delimit Scope promise_scope with promise.
Notation "'await' x <- m ; k" := (Promise.bind m (fun x => k))
  (at level 10, x name, m at level 100, k at level 200) : promise_scope.
Notation "m ;; k" := (Promise.bind m (fun _ => k))
  (at level 100, k at level 200, right associativity) : promise_scope.

(** ** [guid.ts] *)

Definition guid_chars : string := "abcdef0123456789".

Definition charAt (s : string) (i : nat) : string :=
  match String.get i s with
  | Some c => String c EmptyString
  | None => ""
  end.

Fixpoint guid {S} (len : nat) : Promise.M S string :=
  match len with
  | O => Promise.ret ""
  | Datatypes.S n =>
      (await k <- Promise.random16 ;
       await rest <- guid n ;
       Promise.ret (charAt guid_chars k +:+ rest))%promise
  end.

(** ** [Promise.all] over requests

    [Promise.all(xs.map(async x => { ... await request(...) ... }))]:
    every callback runs up to its [await], so all the requests are sent,
    in the order of the array, before any answer is looked at. Each
    request then takes one answer of the transport, in the order of the
    requests: the first failure rejects the whole, and a request whose
    answer never comes leaves it pending. *)

Module PromiseAll.
Import Promise.

(** One callback: the request it sends, and what it makes of the answer
    (the value it returns, or the exception it throws). *)
Record job (A : Type) := {
  job_method : method;
  job_url : string;
  job_headers : headers;
  job_body : body;
  job_then : option string + payload -> exn + A;
}.
Arguments job_method {A} j.
Arguments job_url {A} j.
Arguments job_headers {A} j.
Arguments job_body {A} j.
Arguments job_then {A} j.

Definition reaction (a : answer) : option string + payload :=
  match a with
  | Ok2xx d => inr d
  | Failure d => inl d
  end.

Definition send {A} (j : job A) : event :=
  Request (job_method j) (job_url j) (job_headers j) (job_body j).

Definition send_all {A} (jobs : list (job A)) (w : World) : World :=
  fold_left (fun w j => log (send j) w) jobs w.

Fixpoint settle {A} (jobs : list (job A)) (answers : list answer)
    : outcome (list A) :=
  match jobs with
  | [] => Returned []
  | j :: jobs' =>
      match answers with
      | [] => Unsettled None
      | a :: answers' =>
          match job_then j (reaction a) with
          | inl e => Thrown e
          | inr x =>
              match settle jobs' answers' with
              | Returned xs => Returned (x :: xs)
              | Thrown e => Thrown e
              | Unsettled e => Unsettled e
              | OutOfFuel => OutOfFuel
              end
          end
      end
  end.

Definition take_answers (n : nat) (w : World) : World :=
  {| transport := drop n (transport w); stdin := stdin w; random := random w;
     drawn := drawn w; trace := trace w |}.

Definition all {S A} (jobs : list (job A)) : M S (list A) :=
  fun s w =>
    let w' := send_all jobs w in
    {| out := settle jobs (transport w');
       obj := s;
       env := take_answers (length jobs) w' |}.
End PromiseAll.

(** ** The controller ([blink-camera-system.ts]) *)

Module BlinkCameraSystem.
Import BlinkUrls Promise.

Record t := {
  _username : Js.value;
  _password : Js.value;
  _token : option string;
  _authHeader : option headers;
  _networks : list BlinkNetwork.t;
  _accountId : option Z;
  _region : option string;
  _regionId : option string;
  _host : option string;
  _devices : list BlinkDevice.t;
  _deviceId : Js.value;
  _auth2fa : bool;
  _verificationTimeout : Z;
  debug : bool;
  deviceName : string;
  urls : BlinkUrls.t;
}.

(** *** Field assignments *)

Definition set_token (v : option string) (s : t) : t :=
  {| _username := _username s; _password := _password s; _token := v;
     _authHeader := _authHeader s; _networks := _networks s;
     _accountId := _accountId s; _region := _region s;
     _regionId := _regionId s; _host := _host s; _devices := _devices s;
     _deviceId := _deviceId s; _auth2fa := _auth2fa s;
     _verificationTimeout := _verificationTimeout s; debug := debug s;
     deviceName := deviceName s; urls := urls s |}.

Definition set_authHeader (v : option headers) (s : t) : t :=
  {| _username := _username s; _password := _password s; _token := _token s;
     _authHeader := v; _networks := _networks s;
     _accountId := _accountId s; _region := _region s;
     _regionId := _regionId s; _host := _host s; _devices := _devices s;
     _deviceId := _deviceId s; _auth2fa := _auth2fa s;
     _verificationTimeout := _verificationTimeout s; debug := debug s;
     deviceName := deviceName s; urls := urls s |}.

Definition set_networks (v : list BlinkNetwork.t) (s : t) : t :=
  {| _username := _username s; _password := _password s; _token := _token s;
     _authHeader := _authHeader s; _networks := v;
     _accountId := _accountId s; _region := _region s;
     _regionId := _regionId s; _host := _host s; _devices := _devices s;
     _deviceId := _deviceId s; _auth2fa := _auth2fa s;
     _verificationTimeout := _verificationTimeout s; debug := debug s;
     deviceName := deviceName s; urls := urls s |}.

Definition set_accountId (v : option Z) (s : t) : t :=
  {| _username := _username s; _password := _password s; _token := _token s;
     _authHeader := _authHeader s; _networks := _networks s;
     _accountId := v; _region := _region s;
     _regionId := _regionId s; _host := _host s; _devices := _devices s;
     _deviceId := _deviceId s; _auth2fa := _auth2fa s;
     _verificationTimeout := _verificationTimeout s; debug := debug s;
     deviceName := deviceName s; urls := urls s |}.

Definition set_region (v : option string) (s : t) : t :=
  {| _username := _username s; _password := _password s; _token := _token s;
     _authHeader := _authHeader s; _networks := _networks s;
     _accountId := _accountId s; _region := v;
     _regionId := _regionId s; _host := _host s; _devices := _devices s;
     _deviceId := _deviceId s; _auth2fa := _auth2fa s;
     _verificationTimeout := _verificationTimeout s; debug := debug s;
     deviceName := deviceName s; urls := urls s |}.

Definition set_regionId (v : option string) (s : t) : t :=
  {| _username := _username s; _password := _password s; _token := _token s;
     _authHeader := _authHeader s; _networks := _networks s;
     _accountId := _accountId s; _region := _region s;
     _regionId := v; _host := _host s; _devices := _devices s;
     _deviceId := _deviceId s; _auth2fa := _auth2fa s;
     _verificationTimeout := _verificationTimeout s; debug := debug s;
     deviceName := deviceName s; urls := urls s |}.

Definition set_host (v : option string) (s : t) : t :=
  {| _username := _username s; _password := _password s; _token := _token s;
     _authHeader := _authHeader s; _networks := _networks s;
     _accountId := _accountId s; _region := _region s;
     _regionId := _regionId s; _host := v; _devices := _devices s;
     _deviceId := _deviceId s; _auth2fa := _auth2fa s;
     _verificationTimeout := _verificationTimeout s; debug := debug s;
     deviceName := deviceName s; urls := urls s |}.

Definition set_devices (v : list BlinkDevice.t) (s : t) : t :=
  {| _username := _username s; _password := _password s; _token := _token s;
     _authHeader := _authHeader s; _networks := _networks s;
     _accountId := _accountId s; _region := _region s;
     _regionId := _regionId s; _host := _host s; _devices := v;
     _deviceId := _deviceId s; _auth2fa := _auth2fa s;
     _verificationTimeout := _verificationTimeout s; debug := debug s;
     deviceName := deviceName s; urls := urls s |}.

Definition set_urls (v : BlinkUrls.t) (s : t) : t :=
  {| _username := _username s; _password := _password s; _token := _token s;
     _authHeader := _authHeader s; _networks := _networks s;
     _accountId := _accountId s; _region := _region s;
     _regionId := _regionId s; _host := _host s; _devices := _devices s;
     _deviceId := _deviceId s; _auth2fa := _auth2fa s;
     _verificationTimeout := _verificationTimeout s; debug := debug s;
     deviceName := deviceName s; urls := v |}.

(** *** Construction *)

(** [BlinkCameraSystemOptions], and the two further properties that
    [Object.assign(this, options)] copies onto the instance when a
    caller resumes a session: a token and a region id. *)
Record Options := {
  opt_auth2fa : option bool;
  opt_debug : option bool;
  opt_deviceName : option string;
  opt_token : option string;
  opt_regionId : option string;
}.

Definition constructor (username password deviceId : Js.value)
    (options : Options) : t :=
  {| _username := username;
     _password := password;
     _token := opt_token options;
     _authHeader := None;
     _networks := [];
     _accountId := None;
     _region := None;
     _regionId := opt_regionId options;
     _host := None;
     _devices := [];
     _deviceId := deviceId;
     _auth2fa := default false (opt_auth2fa options);
     _verificationTimeout := 1000 * 60;
     debug := default false (opt_debug options);
     deviceName := default "node-blink-camera-system" (opt_deviceName options);
     urls := BlinkUrls.empty |}.

(** The getters [devices], [networks], [accountId], [region], [regionId]. *)
Definition devices := _devices.
Definition networks := _networks.
Definition accountId := _accountId.
Definition region := _region.
Definition regionId := _regionId.

Section Methods.
Context `{Constants}.
Local Open Scope promise_scope.

(** [JSON.stringify(error.response?.data)] inside a template literal. *)
Definition stringify (data : option string) : string :=
  default "undefined" data.

(** [{ 'token-auth': this._token! }]; the token is a string on every
    path that builds the header. *)
Definition token_header (token : option string) : headers :=
  {[ "token-auth" := Js.tpl_str token ]}.

(** [this.networks.find(n => n.id == network_id)], as a condition. *)
Definition selected (s : t) (network_id : Z) : bool :=
  existsb (fun n => Z.eqb (BlinkNetwork.id n) network_id) (networks s).

Definition getSummary : M t SummaryResponse.t :=
  await s <- this ;
  match _authHeader s with
  | None => throw (BlinkException "Authentication token must be set")
  | Some hs =>
      await response <- request_get (homeUrl (urls s)) hs ;
      match response with
      | inl _ => throw (BlinkException "Can't retrieve system summary")
      | inr (HomeData _ summary) =>
          ret {| SummaryResponse.networks :=
                   List.filter (fun network => selected s (BlinkNetwork.id network))
                     (SummaryResponse.networks summary);
                 SummaryResponse.sync_modules :=
                   List.filter
                     (fun syncModule => selected s (BlinkSyncModule.network_id syncModule))
                     (SummaryResponse.sync_modules summary);
                 SummaryResponse.cameras :=
                   List.filter
                     (fun camera => selected s (BlinkDeviceResponse.network_id camera))
                     (SummaryResponse.cameras summary);
                 SummaryResponse.owls :=
                   List.filter
                     (fun owl => selected s (BlinkDeviceResponse.network_id owl))
                     (SummaryResponse.owls summary) |}
      | inr _ =>
          throw (TypeError "Cannot read properties of undefined (reading 'filter')")
      end
  end.

(** [networkIds.includes(x)] *)
Definition includes (xs : list Z) (x : Z) : bool := existsb (Z.eqb x) xs.

Definition isOnline (networkIds : list Z) : M t (gmap Z bool) :=
  await s <- this ;
  let networks :=
    match networkIds with
    | [] => map BlinkNetwork.id (networks s)
    | _ => networkIds
    end in
  await summaries <- getSummary ;
  ret (fold_left
         (fun onlineStatus syncModule =>
            if includes networks (BlinkSyncModule.network_id syncModule) then
              <[BlinkSyncModule.network_id syncModule :=
                  match BlinkSyncModule.status syncModule with
                  | BlinkSyncModule.online => true
                  | BlinkSyncModule.offline => false
                  end]> onlineStatus
            else onlineStatus)
         (SummaryResponse.sync_modules summaries) ∅).

Definition isArmed : M t (gmap Z bool) :=
  await summaries <- getSummary ;
  await s <- this ;
  let networkIds := map BlinkNetwork.id (networks s) in
  ret (fold_left
         (fun result el =>
            if includes networkIds (BlinkNetwork.id el) then
              <[BlinkNetwork.id el := BlinkNetwork.armed el]> result
            else result)
         (SummaryResponse.networks summaries) ∅).

(** [new Date(2008).toISOString()]: the default [since] is 2008
    milliseconds after the epoch. A date is passed as its ISO-8601
    rendering. *)
Definition default_since : string := "1970-01-01T00:00:02.008Z".

Definition getVideos (page : option Z) (since : option string) : M t payload :=
  let page := default 0 page in
  let since := default default_since since in
  await s <- this ;
  await response <-
    request_get
      (videoUrl (urls s) +:+ "?since=" +:+ since +:+ "&page=" +:+ Js.num_to_string page)
      (default ∅ (_authHeader s)) ;
  match response with
  | inl _ => throw (BlinkException "Can't fetch videos")
  | inr data => ret data
  end.

(** [this._devices.find(d => d.id === camera_id)], with its position. *)
Definition findDevice (device_id : Z) (ds : list BlinkDevice.t)
    : option (nat * BlinkDevice.t) :=
  list_find (λ d, BlinkDevice.id d = device_id) ds.

Definition getLastMotions : M t (gmap Z MotionEvent.t) :=
  await videos <- getVideos None None ;
  match videos with
  | VideoData videos =>
      fold
        (fun result video =>
           let camera_id := VideoResponse.camera_id video in
           await s <- this ;
           match findDevice camera_id (_devices s) with
           | None => throw (BlinkException "Camera not found")
           | Some (i, camera) =>
               if String.eqb (VideoResponse.type video) "motion" then
                 let url := baseUrl (urls s) +:+ VideoResponse.video_url video in
                 let motion :=
                   {| MotionEvent.video := url;
                      MotionEvent.image := Regex.replace Regex.ext_pattern ".jpg" url;
                      MotionEvent.time := VideoResponse.created_at video |} in
                 assign (set_devices
                           (<[i := BlinkDevice.set_motion motion camera]> (_devices s))) ;;
                 ret (<[camera_id := motion]> result)
               else ret result
           end)
        ∅ videos
  | _ => throw (TypeError "videos.forEach is not a function")
  end.

(** One round of the [forEach] of [getCameras]. *)
Definition addDevice (device : BlinkDeviceResponse.t) : M t unit :=
  await s <- this ;
  let device := BlinkDeviceResponse.set_region_id (_regionId s) device in
  let newDevice := BlinkDevice.new device (urls s) (_authHeader s) in
  let kept :=
    match findDevice (BlinkDevice.id newDevice) (_devices s) with
    | Some (existingDeviceIndex, _) => delete existingDeviceIndex (_devices s)
    | None => _devices s
    end in
  assign (set_devices (kept ++ [newDevice])%list).

Definition getCameras : M t (list BlinkDevice.t) :=
  await summaries <- getSummary ;
  let blinkDevices :=
    (SummaryResponse.cameras summaries ++ SummaryResponse.owls summaries)%list in
  forEach addDevice blinkDevices ;;
  await s <- this ;
  ret (_devices s).

Definition _setupWithToken : M t unit :=
  assign (fun s => set_host (Some ("rest-" +:+ Js.tpl_str (_regionId s) +:+ "." +:+ BLINK_URL)) s) ;;
  assign (fun s => set_authHeader (Some (token_header (_token s))) s) ;;
  assign (fun s => set_urls (createBlinkUrls (_accountId s) (_regionId s)) s).

Definition saveAuthResult : M t unit :=
  assign (fun s => set_host (Some ("rest-" +:+ Js.tpl_str (_regionId s) +:+ "." +:+ BLINK_URL)) s) ;;
  assign (fun s => set_authHeader (Some (token_header (_token s))) s) ;;
  assign (fun s => set_urls (createBlinkUrls (_accountId s) (_regionId s)) s).

Definition loginData (s : t) (username password deviceId notificationKey : string)
    : LoginRequest.t :=
  {| LoginRequest.email := username;
     LoginRequest.password := password;
     LoginRequest.notification_key := notificationKey;
     LoginRequest.unique_id := deviceId;
     LoginRequest.app_version := "6.16.0";
     LoginRequest.client_name := deviceName s;
     LoginRequest.client_type := "android";
     LoginRequest.device_identifier := deviceId;
     LoginRequest.device_name := deviceName s;
     LoginRequest.os_version := "13.0.0";
     LoginRequest.reauth := "true" |}.

(** The callback of [rl.question]: an [async] function nobody awaits. *)
Definition verifyPin (hs : headers) (account : LoginResponse.t) (pin : string)
    : M t Js.value :=
  assign (set_regionId (Some (LoginResponse.tier account))) ;;
  assign (set_region (LoginResponse.region account)) ;;
  assign (set_token (Some (LoginResponse.token account))) ;;
  assign (set_accountId (Some (LoginResponse.account_id account))) ;;
  let urls :=
    createBlinkUrls (Some (LoginResponse.account_id account))
      (Some (LoginResponse.tier account)) in
  let hs := <["token-auth" := LoginResponse.token account]> hs in
  let pinUrl :=
    baseUrl urls +:+ "/api/v4/account/"
      +:+ Js.num_to_string (LoginResponse.account_id account)
      +:+ "/client/" +:+ Js.num_to_string (LoginResponse.client_id account)
      +:+ "/pin/verify" in
  await verifyResponse <- request_post pinUrl (PinBody pin) hs ;
  match verifyResponse with
  | inl data =>
      throw (BlinkAuthenticationException
               (Text ("Authentication problem (verify response): " +:+ stringify data)))
  | inr _ =>
      saveAuthResult ;;
      ret (Js.VBool true)
  end.

(** The recursion of the source goes through [setTimeout]; [fuel]
    bounds the number of nested calls. *)
Fixpoint _getAuthToken (fuel : nat) (retries : Z) : M t Js.value :=
  match fuel with
  | O => out_of_fuel
  | S fuel' =>
    await s <- this ;
    match _username s with
    | Js.VStr username =>
      match _password s with
      | Js.VStr password =>
        match _deviceId s with
        | Js.VStr deviceId =>
          let hs : headers := {[ "Content-Type" := "application/json" ]} in
          await notificationKey <- guid SIZE_NOTIFICATION_KEY ;
          let data := loginData s username password deviceId notificationKey in
          await response <-
            request_post (if _auth2fa s then LOGIN_URL_2FA else LOGIN_URL)
              (LoginBody data) hs ;
          match response with
          | inl err =>
              throw (BlinkAuthenticationException
                       (Text ("Authentication problem (response): " +:+ stringify err)))
          | inr (LoginData account) =>
              if LoginResponse.account_verification_required account
                 || LoginResponse.client_verification_required account
              then
                if negb (_auth2fa s) then
                  if Z.eqb retries 1 then
                    throw (BlinkAuthenticationException
                             (Text "Authentication problem (retry): verification timeout"))
                  else
                    setTimeout (_verificationTimeout s) ;;
                    _getAuthToken fuel' (retries + 1)
                else
                  await pin <-
                    question ("Enter the verification code sent to " +:+ username +:+ ": ") ;
                  detached (verifyPin hs account pin)
              else if negb (Js.opt_truthy (LoginResponse.region account)) then
                throw (BlinkAuthenticationException (Data (LoginData account)))
              else
                assign (set_regionId (Some (LoginResponse.tier account))) ;;
                assign (set_region (LoginResponse.region account)) ;;
                assign (set_token (Some (LoginResponse.token account))) ;;
                assign (set_accountId (Some (LoginResponse.account_id account))) ;;
                saveAuthResult ;;
                ret Js.VUndefined
          | inr _ =>
              throw (TypeError
                "Cannot read properties of undefined (reading 'account_verification_required')")
          end
        | _ => throw (BlinkAuthenticationException (Text "Device ID must be a string"))
        end
      | _ => throw (BlinkAuthenticationException (Text "Password must be a string"))
      end
    | _ => throw (BlinkAuthenticationException (Text "Username must be a string"))
    end
  end.

(** [n.id == name_or_id || n.name == name_or_id] *)
Definition matches (name_or_id : Js.value) (n : BlinkNetwork.t) : bool :=
  Js.loose_eq_num (BlinkNetwork.id n) name_or_id
  || Js.loose_eq_str (BlinkNetwork.name n) name_or_id.

Definition getIDs (name_or_id : Js.value) : M t unit :=
  await s <- this ;
  match _authHeader s with
  | None =>
      throw (BlinkException "You have to be authenticated before calling this method")
  | Some hs =>
      await response <- request_get (homeUrl (urls s)) hs ;
      match response with
      | inl err =>
          throw (BlinkException ("Can't retrieve system status: " +:+ stringify err))
      | inr (HomeData account_id data) =>
          match name_or_id with
          | Js.VUndefined =>
              match SummaryResponse.networks data with
              | [] => throw (BlinkException "No networks found")
              | networks => assign (set_networks networks)
              end
          | _ =>
              await foundNetwork <-
                fold
                  (fun foundNetwork n =>
                     if matches name_or_id n then
                       assign (fun s => set_networks (_networks s ++ [n])%list s) ;;
                       ret true
                     else ret foundNetwork)
                  false (SummaryResponse.networks data) ;
              if negb foundNetwork then
                throw (BlinkException ("No network found for " +:+ Js.to_string name_or_id))
              else ret tt
          end ;;
          assign (set_accountId (Some account_id)) ;;
          assign (fun s => set_urls (createBlinkUrls (_accountId s) (_regionId s)) s)
      | inr _ =>
          throw (TypeError "Cannot read properties of undefined (reading 'forEach')")
      end
  end.

Definition init (fuel : nat) (name_or_id : Js.value) : M t unit :=
  await s <- this ;
  if negb ((Js.truthy (_username s) && Js.truthy (_password s))
           || (Js.opt_truthy (_token s) && Js.opt_truthy (_regionId s)))
  then
    throw (BlinkAuthenticationException
             (Text "(_username, _password) or (_token, _regionId) are required for system setup"))
  else
    (if Js.opt_truthy (_token s) then _setupWithToken
     else (_getAuthToken fuel 0 ;; ret tt)) ;;
    getIDs name_or_id ;;
    getCameras ;;
    ret tt.

(** [headers: this._authHeader!]: no header is sent when there is no
    header object, as with the empty one. *)
Definition armJob (value : bool) (s : t) (networkId : Z) : PromiseAll.job payload :=
  let state := if value then "arm" else "disarm" in
  {| PromiseAll.job_method := POST;
     PromiseAll.job_url :=
       armUrl (urls s) +:+ Js.num_to_string networkId +:+ "/state/" +:+ state;
     PromiseAll.job_headers := default ∅ (_authHeader s);
     PromiseAll.job_body := EmptyObject;
     PromiseAll.job_then := fun response =>
       match response with
       | inl _ =>
           inl (BlinkException
                  ("Can't " +:+ state +:+ " the network: " +:+ Js.num_to_string networkId))
       | inr data => inr data
       end |}.

Definition setArmed (value : option bool) (networkIds : list Z)
    : M t (gmap Z payload) :=
  let value := default true value in
  await s <- this ;
  let requestedNetworkIds :=
    match networkIds with
    | [] => map BlinkNetwork.id (networks s)
    | _ => networkIds
    end in
  await results <- PromiseAll.all (map (armJob value s) requestedNetworkIds) ;
  ret (fold_left
         (fun armed '(networkId, result) => <[networkId := result]> armed)
         (zip requestedNetworkIds results) ∅).

(** The callback of the second [map] of [refresh]: the entry of the
    device in the summary, looked up among the cameras and, failing
    that, among the owls, replaces the data of the device. *)
Definition refreshDevice (summaries : SummaryResponse.t) (device : BlinkDevice.t)
    : BlinkDevice.t :=
  let byId := fun c => Z.eqb (BlinkDeviceResponse.id c) (BlinkDevice.id device) in
  let summaryDevice :=
    match List.find byId (SummaryResponse.cameras summaries) with
    | Some c => Some c
    | None => List.find byId (SummaryResponse.owls summaries)
    end in
  match summaryDevice with
  | Some values => BlinkDevice.update values device
  | None => device
  end.

End Methods.
End BlinkCameraSystem.

(** ** Session state *)

Module Session.
Import BlinkCameraSystem.

(** The session fields as [new BlinkCameraSystem(...)] leaves them when
    no token is supplied. *)
Definition empty (s : t) : Prop :=
  _token s = None /\ _authHeader s = None /\ _accountId s = None /\
  _region s = None /\ _regionId s = None /\ urls s = BlinkUrls.empty.

(** A response asks for verification. *)
Definition verification_required (account : LoginResponse.t) : bool :=
  LoginResponse.account_verification_required account
  || LoginResponse.client_verification_required account.
End Session.

(** ** Sample inputs *)

Module Sample.
Import BlinkCameraSystem.

Definition constants : Constants :=
  {| BLINK_URL := "example.com";
     LOGIN_URL := "https://rest-prod.example.com/api/v5/account/login";
     LOGIN_URL_2FA := "https://rest-prod.example.com/api/v5/account/login";
     SIZE_NOTIFICATION_KEY := 8 |}.

Definition world (answers : list answer) (lines : list string) : World :=
  {| transport := answers; stdin := lines; random := fun i => i;
     drawn := 0; trace := [] |}.

Definition options (auth2fa : bool) : Options :=
  {| opt_auth2fa := Some auth2fa; opt_debug := None; opt_deviceName := None;
     opt_token := None; opt_regionId := None |}.

(** A controller right after construction. *)
Definition fresh (auth2fa : bool) : t :=
  constructor (Js.VStr "user@example.com") (Js.VStr "secret")
    (Js.VStr "device-1") (options auth2fa).

(** A controller whose device id is the empty string. *)
Definition fresh_empty_deviceId : t :=
  constructor (Js.VStr "user@example.com") (Js.VStr "secret") (Js.VStr "")
    (options false).

(** A controller resumed from a stored token and region id. *)
Definition resumed : t :=
  constructor (Js.VStr "user@example.com") (Js.VStr "secret")
    (Js.VStr "device-1")
    {| opt_auth2fa := None; opt_debug := None; opt_deviceName := None;
       opt_token := Some "tok"; opt_regionId := Some "u001" |}.

Definition login_needs_code : LoginResponse.t :=
  {| LoginResponse.account_id := 7;
     LoginResponse.region := Some "eu";
     LoginResponse.tier := "e001";
     LoginResponse.account_verification_required := false;
     LoginResponse.client_verification_required := true;
     LoginResponse.client_id := 33;
     LoginResponse.token := "tok" |}.

Definition descriptor (id network_id : Z) (type thumbnail : string)
    : BlinkDeviceResponse.t :=
  {| BlinkDeviceResponse.id := id;
     BlinkDeviceResponse.name := "cam";
     BlinkDeviceResponse.type := type;
     BlinkDeviceResponse.network_id := network_id;
     BlinkDeviceResponse.region_id := None;
     BlinkDeviceResponse.status := "done";
     BlinkDeviceResponse.enabled := true;
     BlinkDeviceResponse.thumbnail := thumbnail;
     BlinkDeviceResponse.signals := None;
     BlinkDeviceResponse.battery := 3;
     BlinkDeviceResponse.updated_at := 0 |}.

Definition home : BlinkNetwork.t :=
  {| BlinkNetwork.id := 1; BlinkNetwork.name := "Home"; BlinkNetwork.armed := true |}.
Definition cabin : BlinkNetwork.t :=
  {| BlinkNetwork.id := 2; BlinkNetwork.name := "Cabin"; BlinkNetwork.armed := false |}.

Definition base : string := "https://rest-u001.example.com".

(** An authenticated controller of region [u001] that selected the
    networks [nets] and knows the devices [ds]. *)
Definition established (nets : list BlinkNetwork.t) (ds : list BlinkDevice.t) : t :=
  set_devices ds
    (set_networks nets
       (set_urls (@createBlinkUrls constants (Some 7) (Some "u001"))
          (set_authHeader (Some (token_header (Some "tok"))) resumed))).

Definition camera5 : BlinkDevice.t :=
  BlinkDevice.new (descriptor 5 1 "camera" "/thumb/5")
    (@createBlinkUrls constants (Some 7) (Some "u001"))
    (Some (token_header (Some "tok"))).

Definition motion_video : VideoResponse.t :=
  {| VideoResponse.camera_id := 5;
     VideoResponse.type := "motion";
     VideoResponse.video_url := "/media/1.mp4";
     VideoResponse.created_at := 1000 |}.

Definition summary (nets : list BlinkNetwork.t)
    (cameras owls : list BlinkDeviceResponse.t) : SummaryResponse.t :=
  {| SummaryResponse.networks := nets;
     SummaryResponse.sync_modules := [];
     SummaryResponse.cameras := cameras;
     SummaryResponse.owls := owls |}.
End Sample.

(** ** The device array, as a value

    The pure content of the loop of [getCameras], used to state what the
    loop leaves in [_devices]. *)

Module DeviceSet.
Import BlinkCameraSystem.

(** What one round of [getCameras] does to the device array. *)
Definition replace_device (newDevice : BlinkDevice.t) (ds : list BlinkDevice.t)
    : list BlinkDevice.t :=
  (match findDevice (BlinkDevice.id newDevice) ds with
   | Some (existingDeviceIndex, _) => delete existingDeviceIndex ds
   | None => ds
   end ++ [newDevice])%list.

(** The record [getCameras] builds for a descriptor. *)
Definition record_of (s : t) (device : BlinkDeviceResponse.t) : BlinkDevice.t :=
  BlinkDevice.new (BlinkDeviceResponse.set_region_id (_regionId s) device)
    (urls s) (_authHeader s).

Definition discover (s : t) (descriptors : list BlinkDeviceResponse.t)
    (ds : list BlinkDevice.t) : list BlinkDevice.t :=
  fold_left (fun acc device => replace_device (record_of s device) acc) descriptors ds.

(** The descriptors [getCameras] walks through: the cameras, then the
    owls, of the selected networks. *)
Definition selected_devices (s : t) (summary : SummaryResponse.t)
    : list BlinkDeviceResponse.t :=
  (List.filter (fun camera => selected s (BlinkDeviceResponse.network_id camera))
     (SummaryResponse.cameras summary)
   ++ List.filter (fun owl => selected s (BlinkDeviceResponse.network_id owl))
        (SummaryResponse.owls summary))%list.
End DeviceSet.

(** ** The requests of the device record ([blink-device.ts])

    A method of [BlinkDevice] that talks to the platform sends one
    request and goes on with its answer: [snapPicture] and
    [imageRefresh]. *)

Module DeviceOps.
Import BlinkUrls.

Record config := {
  method_ : method;
  url : string;
  headers_ : option headers;
  data : body;
}.

(** What comes back: a 2xx response with its [data], or an error with
    its [response?.status]. *)
Inductive reply :=
| Replied (data : payload)
| Failed (status : option Z).

(** A method either throws before it sends anything, or sends its
    request and, on the answer, ends with a result and the device as it
    then is. *)
Inductive call (A : Type) :=
| Throws (e : exn)
| Sends (c : config) (k : reply -> outcome A * BlinkDevice.t).
Arguments Throws {A} e.
Arguments Sends {A} c k.

Definition name (d : BlinkDevice.t) : string :=
  BlinkDeviceResponse.name (BlinkDevice._data d).

(** [`... ${this._data.id} / ${this._data.name} with status code: ${status}`] *)
Definition failure (what sep : string) (d : BlinkDevice.t) (status : option Z) : exn :=
  BlinkException
    (what +:+ Js.num_to_string (BlinkDevice.id d) +:+ sep +:+ name d
       +:+ " with status code: "
       +:+ match status with Some n => Js.num_to_string n | None => "undefined" end).

(** The common shape: the answer is returned as it is, a failure is
    reported, and the device is not touched. *)
Definition passThrough (what sep : string) (d : BlinkDevice.t) (r : reply)
    : outcome payload * BlinkDevice.t :=
  match r with
  | Replied data => (Returned data, d)
  | Failed status => (Thrown (failure what sep d status), d)
  end.

Definition snapPicture (d : BlinkDevice.t) : call payload :=
  match BlinkDevice._imageLink d with
  | Some link =>
      if Js.str_truthy link then
        Sends {| method_ := POST; url := link; headers_ := BlinkDevice._authHeader d;
                 data := EmptyObject |}
          (passThrough "Can't get snapshot from camera " " / " d)
      else Throws (BlinkException "Camera is not initialized")
  | None => Throws (BlinkException "Camera is not initialized")
  end.

(** [this._thumbUrl = ...; this._data.updated_at = camera.updated_at] *)
Definition retouch (camera : BlinkDeviceResponse.t) (d : BlinkDevice.t) : BlinkDevice.t :=
  let old := BlinkDevice._data d in
  {| BlinkDevice.urls := BlinkDevice.urls d;
     BlinkDevice._data :=
       {| BlinkDeviceResponse.id := BlinkDeviceResponse.id old;
          BlinkDeviceResponse.name := BlinkDeviceResponse.name old;
          BlinkDeviceResponse.type := BlinkDeviceResponse.type old;
          BlinkDeviceResponse.network_id := BlinkDeviceResponse.network_id old;
          BlinkDeviceResponse.region_id := BlinkDeviceResponse.region_id old;
          BlinkDeviceResponse.status := BlinkDeviceResponse.status old;
          BlinkDeviceResponse.enabled := BlinkDeviceResponse.enabled old;
          BlinkDeviceResponse.thumbnail := BlinkDeviceResponse.thumbnail old;
          BlinkDeviceResponse.signals := BlinkDeviceResponse.signals old;
          BlinkDeviceResponse.battery := BlinkDeviceResponse.battery old;
          BlinkDeviceResponse.updated_at := BlinkDeviceResponse.updated_at camera |};
     BlinkDevice._thumbUrl :=
       baseUrl (BlinkDevice.urls d) +:+ BlinkDeviceResponse.thumbnail camera +:+ ".jpg";
     BlinkDevice._clipUrl := BlinkDevice._clipUrl d;
     BlinkDevice._motion := BlinkDevice._motion d;
     BlinkDevice._authHeader := BlinkDevice._authHeader d;
     BlinkDevice._imageLink := BlinkDevice._imageLink d;
     BlinkDevice._armLink := BlinkDevice._armLink d |}.


End DeviceOps.

(** ** What the loops compute, as values

    The values the statements below are written with: what a loop of the
    controller leaves behind, which request it sends, which entry of a
    list wins. *)

Module Views.
Import BlinkCameraSystem Promise.
Local Open Scope promise_scope.

(** The controller with the session of a login answer. *)
Definition loggedIn `{Constants} (account : LoginResponse.t) (s : t) : t :=
  set_urls (createBlinkUrls (Some (LoginResponse.account_id account))
              (Some (LoginResponse.tier account)))
    (set_authHeader (Some {[ "token-auth" := LoginResponse.token account ]})
       (set_host (Some ("rest-" +:+ LoginResponse.tier account +:+ "." +:+ BLINK_URL))
          (set_accountId (Some (LoginResponse.account_id account))
             (set_token (Some (LoginResponse.token account))
                (set_region (LoginResponse.region account)
                   (set_regionId (Some (LoginResponse.tier account)) s)))))).

(** The part of a home document that [getSummary] returns. *)
Definition selected_part (s : t) (summary : SummaryResponse.t) : SummaryResponse.t :=
  {| SummaryResponse.networks :=
       List.filter (fun network => selected s (BlinkNetwork.id network))
         (SummaryResponse.networks summary);
     SummaryResponse.sync_modules :=
       List.filter (fun syncModule => selected s (BlinkSyncModule.network_id syncModule))
         (SummaryResponse.sync_modules summary);
     SummaryResponse.cameras :=
       List.filter (fun camera => selected s (BlinkDeviceResponse.network_id camera))
         (SummaryResponse.cameras summary);
     SummaryResponse.owls :=
       List.filter (fun owl => selected s (BlinkDeviceResponse.network_id owl))
         (SummaryResponse.owls summary) |}.

(** The last entry of a list that satisfies [p]. *)
Definition last_such {A} (p : A -> bool) (l : list A) : option A :=
  List.find p (rev l).

(** The event [getLastMotions] builds for a video. *)
Definition motionOf (s : t) (video : VideoResponse.t) : MotionEvent.t :=
  let url := BlinkUrls.baseUrl (urls s) +:+ VideoResponse.video_url video in
  {| MotionEvent.video := url;
     MotionEvent.image := Regex.replace Regex.ext_pattern ".jpg" url;
     MotionEvent.time := VideoResponse.created_at video |}.

Definition is_motion (video : VideoResponse.t) : bool :=
  String.eqb (VideoResponse.type video) "motion".

(** One round of the [forEach] of [getLastMotions]. *)
Definition motionStep (result : gmap Z MotionEvent.t) (video : VideoResponse.t)
    : M t (gmap Z MotionEvent.t) :=
  let camera_id := VideoResponse.camera_id video in
  await s <- this ;
  match findDevice camera_id (_devices s) with
  | None => throw (BlinkException "Camera not found")
  | Some (i, camera) =>
      if is_motion video then
        assign (set_devices
                  (<[i := BlinkDevice.set_motion (motionOf s video) camera]> (_devices s))) ;;
        ret (<[camera_id := motionOf s video]> result)
      else ret result
  end.

(** Every event of [result] is the cached motion of the device that
    [find] returns for its key. *)
Definition cached (result : gmap Z MotionEvent.t) (ds : list BlinkDevice.t) : Prop :=
  forall i ev, result !! i = Some ev ->
    exists k d, findDevice i ds = Some (k, d) /\ BlinkDevice.motion d = Some ev.

(** A request that only reads. *)
Definition is_get (e : event) : Prop :=
  exists url hs, e = Request GET url hs NoBody.

(** The ids [setArmed] works on. *)
Definition requestedIds (s : t) (networkIds : list Z) : list Z :=
  match networkIds with
  | [] => map BlinkNetwork.id (networks s)
  | _ => networkIds
  end.

(** The request [setArmed] sends for a network. *)
Definition armRequest (value : bool) (s : t) (networkId : Z) : event :=
  Request POST
    (BlinkUrls.armUrl (urls s) +:+ Js.num_to_string networkId +:+ "/state/"
       +:+ (if value then "arm" else "disarm"))
    (default ∅ (_authHeader s)) EmptyObject.

(** A decimal digit, and the characters of a decimal number. *)
Definition digit (c : ascii) : Prop := is_Some (Js.digit_in 10 c).

Definition chars (d : Decimal.uint) : list ascii :=
  list_ascii_of_string (NilEmpty.string_of_uint d).

(** Sample answers of the platform. *)
Definition login_ok : LoginResponse.t :=
  {| LoginResponse.account_id := 7;
     LoginResponse.region := Some "eu";
     LoginResponse.tier := "e001";
     LoginResponse.account_verification_required := false;
     LoginResponse.client_verification_required := false;
     LoginResponse.client_id := 33;
     LoginResponse.token := "tok" |}.

Definition login_no_region : LoginResponse.t :=
  {| LoginResponse.account_id := 7;
     LoginResponse.region := None;
     LoginResponse.tier := "e001";
     LoginResponse.account_verification_required := false;
     LoginResponse.client_verification_required := false;
     LoginResponse.client_id := 33;
     LoginResponse.token := "tok" |}.

Definition home_doc : SummaryResponse.t :=
  {| SummaryResponse.networks := [Sample.home; Sample.cabin];
     SummaryResponse.sync_modules :=
       [{| BlinkSyncModule.id := 11; BlinkSyncModule.network_id := 1;
           BlinkSyncModule.status := BlinkSyncModule.online |};
        {| BlinkSyncModule.id := 12; BlinkSyncModule.network_id := 2;
           BlinkSyncModule.status := BlinkSyncModule.offline |}];
     SummaryResponse.cameras :=
       [Sample.descriptor 5 1 "camera" "/thumb/5";
        Sample.descriptor 6 2 "camera" "/thumb/6"];
     SummaryResponse.owls := [Sample.descriptor 8 1 "owl" "/thumb/8"] |}.
End Views.

(** * Properties *)

(** ** The extension pattern of [getLastMotions] *)

Module RegexFacts.
Import Regex.

Lemma plus_not_in_dead cs k s :
  (forall s', k s' = None) -> plus_not_in cs k s = None.
Proof.
  intros Hk. induction s as [|c s IH]; simpl; [done|].
  destruct (in_class cs c); [done|]. by rewrite IH, Hk.
Qed.

(** Nothing can follow the end of the input. *)
Lemma end_then_lit c p s : match_here (EndOfInput :: Lit c :: p) s = None.
Proof. by destruct s. Qed.

Lemma ext_pattern_no_match s : match_here ext_pattern s = None.
Proof.
  unfold ext_pattern. destruct s as [|c s]; cbn [match_here]; [done|].
  destruct (Ascii.eqb "." c); [|done].
  rewrite plus_not_in_dead; [done|]. intros s'. by destruct s'.
Qed.

Lemma replace_first_no_match p repl s :
  (forall s', match_here p s' = None) -> replace_first p repl s = s.
Proof.
  intros Hp. induction s as [|c s IH]; simpl; rewrite Hp; [done|].
  by rewrite IH.
Qed.

(** The pattern as written never matches: the replacement is the
    identity on every string. *)
Lemma replace_ext_pattern repl s : replace ext_pattern repl s = s.
Proof.
  unfold replace. rewrite replace_first_no_match by apply ext_pattern_no_match.
  apply string_of_list_ascii_of_string.
Qed.

(** Without the bracket, the extension of the sample clip is replaced. *)
Example unbracketed_replaces :
  replace ext_pattern_unbracketed ".jpg" "https://rest-u001.example.com/media/1.mp4"
  = "https://rest-u001.example.com/media/1.jpg".
Proof. reflexivity. Qed.
End RegexFacts.

(** ** Promises: how a computation unfolds *)

Module PromiseFacts.
Import Promise.

Section PromiseFacts.
Context {S : Type}.
Implicit Types (s : S) (w : World).

Lemma request_answered m url hs b s w a rest :
  transport w = a :: rest ->
  request m url hs b s w =
    {| out := Returned (match a with Ok2xx d => inr d | Failure d => inl d end);
       obj := s;
       env := pop_transport (log (Request m url hs b) w) |}.
Proof. intros Ht. unfold request. cbn [log transport]. rewrite Ht. by destruct a. Qed.

Lemma request_pending m url hs b s w :
  transport w = [] ->
  request m url hs b s w =
    {| out := Unsettled None; obj := s; env := log (Request m url hs b) w |}.
Proof. intros Ht. unfold request. cbn [log transport]. by rewrite Ht. Qed.

(** Whatever the transport answers, a request adds itself to the trace
    and nothing else. *)
Lemma request_trace m url hs b s w :
  trace (env (request m url hs b s w)) = (trace w ++ [Request m url hs b])%list
  /\ obj (request m url hs b s w) = s.
Proof.
  unfold request. cbn [log transport].
  destruct (transport w) as [|[d|d] rest]; done.
Qed.

Lemma bind_assign {A} (f : S -> S) (k : unit -> M S A) s w :
  bind (assign f) k s w = k tt (f s) w.
Proof. reflexivity. Qed.

Lemma bind_this {A} (k : S -> M S A) s w : bind this k s w = k s s w.
Proof. reflexivity. Qed.

Lemma bind_ret {A B} (a : A) (k : A -> M S B) s w : bind (ret a) k s w = k a s w.
Proof. reflexivity. Qed.

Lemma bind_throw {A B} e (k : A -> M S B) s w :
  bind (throw e) k s w = throw e s w.
Proof. reflexivity. Qed.

Lemma bind_request_answered {A} m url hs b (k : _ -> M S A) s w a rest :
  transport w = a :: rest ->
  bind (request m url hs b) k s w =
    k (match a with Ok2xx d => inr d | Failure d => inl d end) s
      (pop_transport (log (Request m url hs b) w)).
Proof. intros Ht. unfold bind. by rewrite (request_answered _ _ _ _ _ _ _ _ Ht). Qed.

(** A property of the local variable of a [fold] that every round
    keeps holds of what the [fold] returns. *)
Lemma fold_invariant {A B} (P : B -> Prop) (f : B -> A -> M S B) xs :
  (forall b x s w b', P b -> out (f b x s w) = Returned b' -> P b') ->
  forall b s w b', P b -> out (fold f b xs s w) = Returned b' -> P b'.
Proof.
  intros Hstep. induction xs as [|x xs IH]; intros b s w b' Hb; cbn [fold].
  - intros [= <-]. done.
  - unfold bind. destruct (f b x s w) as [[b1| | |] s1 w1] eqn:Hf;
      cbn [out obj env]; try discriminate.
    apply IH. apply (Hstep b x s w). { done. } by rewrite Hf.
Qed.

Lemma guid_spec n s w :
  exists key w', guid n s w = {| out := Returned key; obj := s; env := w' |}
    /\ transport w' = transport w /\ stdin w' = stdin w /\ trace w' = trace w.
Proof.
  revert w. induction n as [|n IH]; intros w; cbn [guid].
  - by exists "", w.
  - unfold bind, random16. cbn [out obj env].
    destruct (IH (draw w)) as (key & w' & -> & ? & ? & ?). cbn [out obj env].
    eexists _, w'. done.
Qed.
End PromiseFacts.
End PromiseFacts.


(** ** The controller *)

Module Spec.
Import BlinkCameraSystem Promise PromiseFacts DeviceSet.
Local Open Scope promise_scope.

Section Spec.
Context `{Constants}.
Implicit Types (s : t) (w : World).

(** One login attempt, up to the answer of the transport. *)
Lemma login_attempt fuel retries s w username password deviceId a rest :
  _username s = Js.VStr username -> _password s = Js.VStr password ->
  _deviceId s = Js.VStr deviceId ->
  transport w = a :: rest ->
  exists key w',
    transport w' = rest /\ stdin w' = stdin w /\
    trace w' = (trace w ++ [Request POST (if _auth2fa s then LOGIN_URL_2FA else LOGIN_URL)
                       {["Content-Type" := "application/json"]}
                       (LoginBody (loginData s username password deviceId key))])%list /\
    _getAuthToken (S fuel) retries s w =
      match a with
      | Failure err =>
          throw (BlinkAuthenticationException
                   (Text ("Authentication problem (response): " +:+ stringify err)))
      | Ok2xx (LoginData account) =>
          if Session.verification_required account then
            if negb (_auth2fa s) then
              if Z.eqb retries 1 then
                throw (BlinkAuthenticationException
                         (Text "Authentication problem (retry): verification timeout"))
              else
                bind (setTimeout (_verificationTimeout s))
                  (fun _ => _getAuthToken fuel (retries + 1))
            else
              bind (question ("Enter the verification code sent to " +:+ username +:+ ": "))
                (fun pin => detached (verifyPin {["Content-Type" := "application/json"]} account pin))
          else if negb (Js.opt_truthy (LoginResponse.region account)) then
            throw (BlinkAuthenticationException (Data (LoginData account)))
          else
            bind (assign (set_regionId (Some (LoginResponse.tier account))))
              (fun _ => bind (assign (set_region (LoginResponse.region account)))
              (fun _ => bind (assign (set_token (Some (LoginResponse.token account))))
              (fun _ => bind (assign (set_accountId (Some (LoginResponse.account_id account))))
              (fun _ => bind saveAuthResult (fun _ => ret Js.VUndefined)))))
      | Ok2xx _ =>
          throw (TypeError
            "Cannot read properties of undefined (reading 'account_verification_required')")
      end s w'.
Proof.
  intros Hu Hp Hd Ht. cbn [_getAuthToken]. unfold bind at 1, this. cbn [out obj env].
  rewrite Hu, Hp, Hd. unfold bind at 1.
  destruct (guid_spec SIZE_NOTIFICATION_KEY s w) as (key & w1 & -> & Ht1 & Hs1 & Hr1).
  cbn [out obj env]. unfold bind at 1, request_post.
  rewrite (request_answered _ _ _ _ _ _ a rest) by congruence.
  cbn [out obj env].
  exists key. eexists. split; [|split; [|split]]; cycle 3.
  - destruct a as [[account| | |]|err]; reflexivity.
  - cbn. by rewrite Ht1, Ht.
  - done.
  - cbn. by rewrite Hr1.
Qed.


(** C4 (as amended): when [_username], [_password] or [_deviceId] is not of
    type string, [_getAuthToken] throws a [BlinkAuthenticationException]
    at once: the controller is unchanged and so is the environment, so no
    request was sent. The check is [typeof x != 'string']; it lets the
    empty string through. *)
Theorem non_string_credentials_rejected fuel retries s w :
  Js.typeof (_username s) <> Js.TString \/ Js.typeof (_password s) <> Js.TString
  \/ Js.typeof (_deviceId s) <> Js.TString ->
  exists msg,
    _getAuthToken (S fuel) retries s w =
      {| out := Thrown (BlinkAuthenticationException (Text msg));
         obj := s; env := w |}.
Proof.
  intros Hbad. cbn [_getAuthToken]. unfold bind at 1, this. cbn [out obj env].
  revert Hbad.
  destruct (_username s), (_password s), (_deviceId s);
    intros [?|[?|?]]; (done || by eexists).
Qed.


(** C5: without 2FA, when the first login answer asks for verification,
    [_getAuthToken] waits [_verificationTimeout] once and posts the same
    login once more; the trace is exactly login, timeout, login, whatever
    the second answer is, and the rest of the transport is not consumed.
    When the second answer asks for verification too, the call throws
    [BlinkAuthenticationException] ("verification timeout") and leaves
    the controller as it was. *)
Theorem verification_retry_once fuel s w username password deviceId r1 a2 rest :
  _username s = Js.VStr username ->
  _password s = Js.VStr password ->
  _deviceId s = Js.VStr deviceId ->
  _auth2fa s = false ->
  transport w = Ok2xx (LoginData r1) :: a2 :: rest ->
  Session.verification_required r1 = true ->
  let r := _getAuthToken (S (S fuel)) 0 s w in
  transport (env r) = rest
  /\ (exists key1 key2,
       trace (env r) =
         (trace w ++
          [Request POST LOGIN_URL {["Content-Type" := "application/json"]}
             (LoginBody (loginData s username password deviceId key1));
           Timeout (_verificationTimeout s);
           Request POST LOGIN_URL {["Content-Type" := "application/json"]}
             (LoginBody (loginData s username password deviceId key2))])%list)
  /\ (forall r2,
       a2 = Ok2xx (LoginData r2) ->
       Session.verification_required r2 = true ->
       out r = Thrown (BlinkAuthenticationException
                         (Text "Authentication problem (retry): verification timeout"))
       /\ obj r = s).
Proof.
  intros Hu Hp Hd H2fa Ht Hv1 r.
  destruct (login_attempt (S fuel) 0 s w _ _ _ _ _ Hu Hp Hd Ht)
    as (key1 & w1 & Ht1 & _ & Hr1 & Hrun).
  rewrite Hv1, H2fa in Hrun. cbn [negb Z.eqb] in Hrun.
  unfold bind at 1, setTimeout in Hrun. cbn [out obj env] in Hrun.
  destruct (login_attempt fuel (0 + 1) s (log (Timeout (_verificationTimeout s)) w1)
              _ _ _ _ _ Hu Hp Hd Ht1)
    as (key2 & w3 & Ht3 & _ & Hr3 & Hretry).
  rewrite Hretry, H2fa in Hrun. cbn [negb] in Hrun.
  change (0 + 1 =? 1)%Z with true in Hrun. cbv iota in Hrun.
  assert (Htrace : trace w3 =
    (trace w ++
       [Request POST LOGIN_URL {["Content-Type" := "application/json"]}
          (LoginBody (loginData s username password deviceId key1));
        Timeout (_verificationTimeout s);
        Request POST LOGIN_URL {["Content-Type" := "application/json"]}
          (LoginBody (loginData s username password deviceId key2))])%list).
  { rewrite Hr3. cbn [log trace]. rewrite Hr1, H2fa. by rewrite <- !app_assoc. }
  subst r. rewrite Hrun. clear Hrun Hretry. split; [|split].
  - destruct a2 as [[r2| | |]|err]; try done.
    destruct (Session.verification_required r2); [done|].
    by destruct (negb (Js.opt_truthy (LoginResponse.region r2))).
  - exists key1, key2. rewrite <- Htrace.
    destruct a2 as [[r2| | |]|err]; try done.
    destruct (Session.verification_required r2); [done|].
    by destruct (negb (Js.opt_truthy (LoginResponse.region r2))).
  - intros r2 -> Hv2. by rewrite Hv2.
Qed.

(** C2 (as amended): in the 2FA path, when the pin-verification request
    fails, [_authHeader], [urls] and [_host] still have the value they had
    before the call, while [_token], [_accountId], [_region] and
    [_regionId] already hold what the login answer carried. The promise
    itself stays pending, the exception being raised inside the callback
    of [rl.question]. *)
Theorem pin_failure_session fuel retries s w username password deviceId
    account data rest pin lines :
  _username s = Js.VStr username ->
  _password s = Js.VStr password ->
  _deviceId s = Js.VStr deviceId ->
  _auth2fa s = true ->
  transport w = Ok2xx (LoginData account) :: Failure data :: rest ->
  Session.verification_required account = true ->
  stdin w = pin :: lines ->
  let r := _getAuthToken (S fuel) retries s w in
  out r = Unsettled (Some (BlinkAuthenticationException
            (Text ("Authentication problem (verify response): " +:+ stringify data))))
  /\ _authHeader (obj r) = _authHeader s
  /\ urls (obj r) = urls s
  /\ _host (obj r) = _host s
  /\ _token (obj r) = Some (LoginResponse.token account)
  /\ _accountId (obj r) = Some (LoginResponse.account_id account)
  /\ _region (obj r) = LoginResponse.region account
  /\ _regionId (obj r) = Some (LoginResponse.tier account).
Proof.
  intros Hu Hp Hd H2fa Ht Hv Hin r.
  destruct (login_attempt fuel retries s w _ _ _ _ _ Hu Hp Hd Ht)
    as (key & w1 & Ht1 & Hs1 & _ & Hrun).
  rewrite Hv, H2fa in Hrun. cbn [negb] in Hrun.
  unfold bind at 1, question in Hrun. cbn [log stdin] in Hrun.
  rewrite Hs1, Hin in Hrun. cbn [out obj env] in Hrun.
  unfold detached, verifyPin in Hrun. rewrite !bind_assign in Hrun.
  unfold request_post in Hrun.
  rewrite (bind_request_answered _ _ _ _ _ _ _ (Failure data) rest) in Hrun by done.
  subst r. rewrite Hrun. done.
Qed.


Lemma getSummary_unauthenticated s w :
  _authHeader s = None ->
  getSummary s w = throw (BlinkException "Authentication token must be set") s w.
Proof. intros Hh. unfold getSummary. by rewrite bind_this, Hh. Qed.

(** C3 (as amended): with no auth header, [getSummary], [getIDs],
    [getCameras], [isArmed] and [isOnline] throw a [BlinkException] at
    once, leaving controller and environment untouched (no request).
    [getVideos] has no such guard: it sends its GET with the empty header
    set. *)
Theorem empty_session_guards s w :
  _authHeader s = None ->
  getSummary s w = throw (BlinkException "Authentication token must be set") s w
  /\ (forall name_or_id,
        getIDs name_or_id s w =
          throw (BlinkException "You have to be authenticated before calling this method") s w)
  /\ getCameras s w = throw (BlinkException "Authentication token must be set") s w
  /\ isArmed s w = throw (BlinkException "Authentication token must be set") s w
  /\ (forall networkIds,
        isOnline networkIds s w =
          throw (BlinkException "Authentication token must be set") s w)
  /\ (forall page since,
        trace (env (getVideos page since s w)) =
          (trace w ++
           [Request GET
              (BlinkUrls.videoUrl (urls s) +:+ "?since=" +:+ default default_since since
                 +:+ "&page=" +:+ Js.num_to_string (default 0 page))
              ∅ NoBody])%list).
Proof.
  intros Hh. pose proof (getSummary_unauthenticated s w Hh) as Hsum.
  repeat split.
  - done.
  - intros v. unfold getIDs. by rewrite bind_this, Hh.
  - unfold getCameras, bind. by rewrite Hsum.
  - unfold isArmed, bind. by rewrite Hsum.
  - intros ids. unfold isOnline. rewrite bind_this. unfold bind. by rewrite Hsum.
  - intros page since. unfold getVideos. rewrite bind_this, Hh. unfold bind, request_get.
    pose proof (request_trace (S:=t) GET
      (BlinkUrls.videoUrl (urls s) +:+ "?since=" +:+ default default_since since
         +:+ "&page=" +:+ Js.num_to_string (default 0 page)) ∅ NoBody s w) as [Htr _].
    cbn [default] in *.
    destruct (request _ _ _ _ s w) as [[[d|d]| | |] s' w']; cbn [out obj env] in *; done.
Qed.

(** [getSummary] returns only on an established session and a home
    document. *)
Lemma getSummary_returned s w result :
  out (getSummary s w) = Returned result ->
  exists hs account_id summary rest,
    _authHeader s = Some hs
    /\ transport w = Ok2xx (HomeData account_id summary) :: rest.
Proof.
  unfold getSummary. rewrite bind_this.
  destruct (_authHeader s) as [hs|]; [|discriminate].
  unfold request_get. destruct (transport w) as [|a rest] eqn:Ht.
  - unfold bind. by rewrite (request_pending _ _ _ _ _ _ Ht).
  - rewrite (bind_request_answered _ _ _ _ _ _ _ _ _ Ht).
    destruct a as [[r|account_id summary|vs|raw]|err]; try discriminate.
    intros _. by exists hs, account_id, summary, rest.
Qed.

Lemma selected_spec s i :
  selected s i = true <-> i ∈ map BlinkNetwork.id (_networks s).
Proof.
  unfold selected, networks. rewrite existsb_exists, list_elem_of_fmap.
  split.
  - intros (n & Hn & Heq). exists n. apply Z.eqb_eq in Heq.
    split; [done|]. by apply list_elem_of_In.
  - intros (n & -> & Hn). exists n. split; [by apply list_elem_of_In|]. apply Z.eqb_refl.
Qed.

Lemma elem_of_List_filter {A} (f : A -> bool) l x :
  x ∈ List.filter f l <-> x ∈ l /\ f x = true.
Proof. by rewrite !list_elem_of_In, filter_In. Qed.

(** C6: [getSummary] returns, of the networks, sync modules, cameras and
    owls of the home document, exactly those whose network id is the id
    of a selected network. *)
Theorem getSummary_selected_only s w hs account_id summary rest :
  _authHeader s = Some hs ->
  transport w = Ok2xx (HomeData account_id summary) :: rest ->
  exists result,
    out (getSummary s w) = Returned result
    /\ (forall n, n ∈ SummaryResponse.networks result <->
          n ∈ SummaryResponse.networks summary
          /\ BlinkNetwork.id n ∈ map BlinkNetwork.id (_networks s))
    /\ (forall m, m ∈ SummaryResponse.sync_modules result <->
          m ∈ SummaryResponse.sync_modules summary
          /\ BlinkSyncModule.network_id m ∈ map BlinkNetwork.id (_networks s))
    /\ (forall c, c ∈ SummaryResponse.cameras result <->
          c ∈ SummaryResponse.cameras summary
          /\ BlinkDeviceResponse.network_id c ∈ map BlinkNetwork.id (_networks s))
    /\ (forall o, o ∈ SummaryResponse.owls result <->
          o ∈ SummaryResponse.owls summary
          /\ BlinkDeviceResponse.network_id o ∈ map BlinkNetwork.id (_networks s)).
Proof.
  intros Hh Ht. unfold getSummary. rewrite bind_this, Hh. unfold request_get.
  rewrite (bind_request_answered _ _ _ _ _ _ _ _ _ Ht).
  eexists. split; [reflexivity|]. cbn.
  split_and!; intros x; rewrite elem_of_List_filter, selected_spec; tauto.
Qed.


(** The loop of [getIDs] appends the matching networks, in order, and
    reports whether there was one. *)
Lemma getIDs_loop name_or_id nets found s w :
  fold
    (fun foundNetwork n =>
       if matches name_or_id n then
         bind (assign (fun s => set_networks (_networks s ++ [n])%list s))
           (fun _ => ret true)
       else ret foundNetwork)
    found nets s w =
  {| out := Returned (found || existsb (matches name_or_id) nets);
     obj := match List.filter (matches name_or_id) nets with
            | [] => s
            | sel => set_networks (_networks s ++ sel)%list s
            end;
     env := w |}.
Proof.
  revert found s. induction nets as [|n nets IH]; intros found s; cbn [fold existsb List.filter].
  - by rewrite orb_false_r.
  - destruct (matches name_or_id n) eqn:Hm.
    + unfold bind at 1. rewrite bind_assign. cbn [ret out obj env]. rewrite IH.
      cbn [orb]. rewrite orb_true_r. f_equal.
      destruct (List.filter (matches name_or_id) nets) as [|n' sel]; [done|].
      destruct s; cbn. by rewrite <- app_assoc.
    + rewrite bind_ret, IH. done.
Qed.

Lemma filter_existsb {A} (f : A -> bool) (l : list A) :
  existsb f l = false <-> List.filter f l = [].
Proof.
  induction l as [|x l IH]; cbn; [done|].
  destruct (f x); cbn; [split; discriminate|exact IH].
Qed.

(** [getIDs] on an authenticated controller, once the home document is
    there. *)
Lemma getIDs_answered name_or_id s w hs account_id data rest :
  _authHeader s = Some hs ->
  transport w = Ok2xx (HomeData account_id data) :: rest ->
  let nets := SummaryResponse.networks data in
  let w' := pop_transport (log (Request GET (BlinkUrls.homeUrl (urls s)) hs NoBody) w) in
  let done_ (selection : list BlinkNetwork.t) :=
    {| out := Returned tt;
       obj := set_urls (createBlinkUrls (Some account_id) (_regionId s))
                (set_accountId (Some account_id) (set_networks selection s));
       env := w' |} in
  getIDs name_or_id s w =
    match name_or_id with
    | Js.VUndefined =>
        match nets with
        | [] => throw (BlinkException "No networks found") s w'
        | _ => done_ nets
        end
    | _ =>
        if existsb (matches name_or_id) nets
        then done_ (_networks s ++ List.filter (matches name_or_id) nets)%list
        else throw (BlinkException ("No network found for " +:+ Js.to_string name_or_id)) s w'
    end.
Proof.
  intros Hh Ht nets w' done_. unfold getIDs. rewrite bind_this, Hh. unfold request_get.
  rewrite (bind_request_answered _ _ _ _ _ _ _ _ _ Ht). cbv iota. fold nets w'.
  destruct name_or_id;
    try (unfold bind at 1 2; rewrite getIDs_loop; cbn [out obj env orb];
         destruct (existsb _ nets) eqn:Hex; cbn [negb];
         [ destruct (List.filter _ nets) eqn:Hf;
           [apply filter_existsb in Hf; congruence|reflexivity]
         | apply filter_existsb in Hex; by rewrite Hex ]).
  by destruct nets.
Qed.



(** *** Motion events *)

(** Whatever [getLastMotions] returns, the [image] of every event is its
    [video] URL, unchanged. *)
Lemma getLastMotions_image_is_video s w result :
  out (getLastMotions s w) = Returned result ->
  forall camera_id motion,
    result !! camera_id = Some motion ->
    MotionEvent.image motion = MotionEvent.video motion.
Proof.
  unfold getLastMotions. unfold bind at 1.
  destruct (getVideos None None s w) as [[[r|a d|videos|raw]| | |] s1 w1];
    cbn [out obj env]; try discriminate.
  intros Hout.
  change (map_Forall (fun _ motion => MotionEvent.image motion = MotionEvent.video motion)
            result).
  revert Hout. apply fold_invariant; [|apply map_Forall_empty].
  clear. intros result video s w result' Hres. rewrite bind_this.
  destruct (findDevice _ _) as [[i camera]|]; [|discriminate].
  destruct (String.eqb _ _).
  - rewrite bind_assign. intros [= <-].
    apply map_Forall_insert_2; [|done]. cbn. apply RegexFacts.replace_ext_pattern.
  - by intros [= <-].
Qed.

(** *** The device set *)

Lemma replace_device_ids_found d ds i x :
  findDevice (BlinkDevice.id d) ds = Some (i, x) ->
  map BlinkDevice.id (replace_device d ds) ≡ₚ map BlinkDevice.id ds.
Proof.
  intros Hf. unfold replace_device. rewrite Hf.
  apply list_find_Some in Hf as (Hi & Hid & _).
  rewrite (delete_Permutation ds i x Hi) at 2.
  rewrite map_app. cbn [map]. rewrite Hid.
  by rewrite Permutation_app_comm.
Qed.

Lemma replace_device_NoDup d ds :
  NoDup (map BlinkDevice.id ds) -> NoDup (map BlinkDevice.id (replace_device d ds)).
Proof.
  intros Hnd. destruct (findDevice (BlinkDevice.id d) ds) as [[i x]|] eqn:Hf.
  - by rewrite (replace_device_ids_found d ds i x Hf).
  - unfold replace_device. rewrite Hf, map_app. cbn [map].
    apply NoDup_app. split_and!; [done| |apply NoDup_singleton].
    intros j Hj Hj'. apply list_elem_of_singleton in Hj'. subst j.
    apply list_elem_of_fmap in Hj as (y & Hy & Hin).
    apply list_find_None in Hf. rewrite Forall_forall in Hf. by apply (Hf y).
Qed.

Lemma replace_device_new d ds : d ∈ replace_device d ds.
Proof. unfold replace_device. apply elem_of_app. right. apply list_elem_of_here. Qed.

Lemma replace_device_other d ds x :
  x ∈ ds -> BlinkDevice.id x <> BlinkDevice.id d -> x ∈ replace_device d ds.
Proof.
  intros Hin Hne. unfold replace_device. apply elem_of_app. left.
  destruct (findDevice (BlinkDevice.id d) ds) as [[i y]|] eqn:Hf; [|done].
  apply list_find_Some in Hf as (Hi & Hid & _).
  rewrite (delete_Permutation ds i y Hi) in Hin.
  apply elem_of_cons in Hin as [->|Hin]; [done|done].
Qed.

Lemma record_of_id s d : BlinkDevice.id (record_of s d) = BlinkDeviceResponse.id d.
Proof. reflexivity. Qed.

Lemma discover_NoDup s descriptors ds :
  NoDup (map BlinkDevice.id ds) -> NoDup (map BlinkDevice.id (discover s descriptors ds)).
Proof.
  revert ds. induction descriptors as [|d l IH]; intros ds Hnd; [done|].
  apply IH. by apply replace_device_NoDup.
Qed.

Lemma discover_keeps s descriptors ds x :
  x ∈ ds ->
  (forall d', d' ∈ descriptors -> BlinkDeviceResponse.id d' <> BlinkDevice.id x) ->
  x ∈ discover s descriptors ds.
Proof.
  revert ds. induction descriptors as [|d l IH]; intros ds Hin Hne; [done|].
  apply IH.
  - apply replace_device_other; [done|]. rewrite record_of_id.
    intros Heq. apply (Hne d); [apply list_elem_of_here|done].
  - intros d' Hd'. apply Hne. by apply list_elem_of_further.
Qed.

(** The last descriptor with a given id is the one whose record stays. *)
Lemma discover_last s pre d post ds :
  (forall d', d' ∈ post -> BlinkDeviceResponse.id d' <> BlinkDeviceResponse.id d) ->
  record_of s d ∈ discover s (pre ++ d :: post) ds.
Proof.
  intros Hpost. unfold discover. rewrite fold_left_app. cbn [fold_left].
  apply discover_keeps; [apply replace_device_new|done].
Qed.

Lemma NoDup_fmap_unique {A B} (f : A -> B) (l : list A) x y :
  NoDup (f <$> l) -> x ∈ l -> y ∈ l -> f x = f y -> x = y.
Proof.
  induction l as [|a l IH]; intros Hnd Hx Hy Heq; [by apply elem_of_nil in Hx|].
  rewrite fmap_cons in Hnd. apply NoDup_cons in Hnd as [Ha Hnd].
  apply elem_of_cons in Hx as [->|Hx]; apply elem_of_cons in Hy as [->|Hy].
  - done.
  - exfalso. apply Ha. rewrite Heq. by apply list_elem_of_fmap_2.
  - exfalso. apply Ha. rewrite <- Heq. by apply list_elem_of_fmap_2.
  - by apply IH.
Qed.

Lemma addDevice_spec d s w :
  addDevice d s w =
    {| out := Returned tt;
       obj := set_devices (replace_device (record_of s d) (_devices s)) s;
       env := w |}.
Proof. reflexivity. Qed.

Lemma forEach_addDevice descriptors s w :
  exists s',
    forEach addDevice descriptors s w = {| out := Returned tt; obj := s'; env := w |}
    /\ _devices s' = discover s descriptors (_devices s)
    /\ urls s' = urls s /\ _regionId s' = _regionId s
    /\ _authHeader s' = _authHeader s /\ _networks s' = _networks s.
Proof.
  revert s. induction descriptors as [|d l IH]; intros s; cbn [forEach].
  - by exists s.
  - unfold bind. rewrite addDevice_spec. cbn [out obj env].
    destruct (IH (set_devices (replace_device (record_of s d) (_devices s)) s))
      as (s' & -> & Hd & Hu & Hr & Hh & Hn).
    exists s'. split; [done|]. rewrite Hd, Hu, Hr, Hh, Hn. done.
Qed.

Lemma getCameras_answered s w hs account_id summary rest :
  _authHeader s = Some hs ->
  transport w = Ok2xx (HomeData account_id summary) :: rest ->
  exists s',
    getCameras s w =
      {| out := Returned (_devices s'); obj := s';
         env := pop_transport (log (Request GET (BlinkUrls.homeUrl (urls s)) hs NoBody) w) |}
    /\ _devices s' = discover s (selected_devices s summary) (_devices s)
    /\ urls s' = urls s /\ _regionId s' = _regionId s
    /\ _authHeader s' = _authHeader s /\ _networks s' = _networks s.
Proof.
  intros Hh Ht. unfold getCameras. unfold bind at 1. unfold getSummary.
  rewrite bind_this, Hh. unfold request_get.
  rewrite (bind_request_answered _ _ _ _ _ _ _ _ _ Ht). cbn [ret out obj env].
  match goal with |- context [bind (forEach addDevice ?l) _ s ?w1] =>
    destruct (forEach_addDevice l s w1) as (s' & Hrun & Hd & Hrest) end.
  unfold bind at 1. rewrite Hrun. cbn [out obj env]. rewrite bind_this.
  exists s'. destruct Hrest as (? & ? & ? & ?). split_and!; [done|exact Hd|congruence..].
Qed.

(** C7: ids stay unique in [_devices] through [getCameras], and the second
    of two discoveries wins: for the last descriptor [d] of an id in the
    second summary there is exactly one record with that id in the final
    array, and its thumbnail is [baseUrl + d.thumbnail + ".jpg"]. *)
Theorem getCameras_replaces_by_id s w hs account1 summary1 account2 summary2 rest :
  _authHeader s = Some hs ->
  NoDup (map BlinkDevice.id (_devices s)) ->
  transport w =
    Ok2xx (HomeData account1 summary1) :: Ok2xx (HomeData account2 summary2) :: rest ->
  let first := getCameras s w in
  let second := getCameras (obj first) (env first) in
  out second = Returned (_devices (obj second))
  /\ NoDup (map BlinkDevice.id (_devices (obj second)))
  /\ forall pre d post,
       selected_devices s summary2 = (pre ++ d :: post)%list ->
       (forall d', d' ∈ post -> BlinkDeviceResponse.id d' <> BlinkDeviceResponse.id d) ->
       exists record,
         record ∈ _devices (obj second)
         /\ BlinkDevice.id record = BlinkDeviceResponse.id d
         /\ BlinkDevice.thumbnail record =
              BlinkUrls.baseUrl (urls s) +:+ BlinkDeviceResponse.thumbnail d +:+ ".jpg"
         /\ forall other,
              other ∈ _devices (obj second) ->
              BlinkDevice.id other = BlinkDeviceResponse.id d -> other = record.
Proof.
  intros Hh Hnd Ht first second.
  destruct (getCameras_answered s w hs _ _ _ Hh Ht)
    as (s1 & Hfirst & Hd1 & Hu1 & Hr1 & Hh1 & Hn1).
  assert (Ht1 : transport (env first) = Ok2xx (HomeData account2 summary2) :: rest).
  { subst first. rewrite Hfirst. cbn. by rewrite Ht. }
  assert (Hobj1 : obj first = s1) by (subst first; by rewrite Hfirst).
  assert (Hh1' : _authHeader (obj first) = Some hs) by (by rewrite Hobj1, Hh1).
  destruct (getCameras_answered (obj first) (env first) hs _ _ _ Hh1' Ht1)
    as (s2 & Hsecond & Hd2 & Hu2 & Hr2 & Hh2 & Hn2).
  fold second in Hsecond. rewrite Hsecond. cbn [out obj env].
  assert (Hnd2 : NoDup (map BlinkDevice.id (_devices s2))).
  { rewrite Hd2. apply discover_NoDup. rewrite Hobj1, Hd1. by apply discover_NoDup. }
  split_and!; [done|done|].
  intros pre d post Hsel Hpost.
  assert (Hsel' : selected_devices (obj first) summary2 = (pre ++ d :: post)%list).
  { rewrite <- Hsel. unfold selected_devices, selected, networks. by rewrite Hobj1, Hn1. }
  exists (record_of (obj first) d). split_and!.
  - rewrite Hd2, Hsel'. by apply discover_last.
  - done.
  - cbn. by rewrite Hobj1, Hu1.
  - intros other Hin Hid.
    apply (NoDup_fmap_unique BlinkDevice.id (_devices s2)); [done|done| |done].
    rewrite Hd2, Hsel'. by apply discover_last.
Qed.


(** *** Setup *)

(** [init] refuses, before anything else, a controller that has neither
    a user name and a password nor a token and a region id. *)
Lemma init_requires_credentials fuel name_or_id s w :
  Js.truthy (_username s) && Js.truthy (_password s) = false ->
  Js.opt_truthy (_token s) && Js.opt_truthy (_regionId s) = false ->
  init fuel name_or_id s w =
    throw (BlinkAuthenticationException
             (Text "(_username, _password) or (_token, _regionId) are required for system setup"))
      s w.
Proof. intros Hup Htr. unfold init. by rewrite bind_this, Hup, Htr. Qed.

(** *** Traces *)

(** [getIDs] on an established session sends exactly one request. *)
Lemma getIDs_trace name_or_id s w hs :
  _authHeader s = Some hs ->
  trace (env (getIDs name_or_id s w)) =
    (trace w ++ [Request GET (BlinkUrls.homeUrl (urls s)) hs NoBody])%list.
Proof.
  intros Hh. unfold getIDs. rewrite bind_this, Hh. unfold request_get.
  destruct (transport w) as [|a rest] eqn:Ht.
  - unfold bind. by rewrite (request_pending _ _ _ _ _ _ Ht).
  - rewrite (bind_request_answered _ _ _ _ _ _ _ _ _ Ht).
    destruct a as [[r|account_id data|vs|raw]|err]; try done.
    destruct name_or_id; try (unfold bind at 1 2; rewrite getIDs_loop; cbn [out obj env];
      by destruct (existsb _ _)).
    by destruct (SummaryResponse.networks data).
Qed.

(** When [getIDs] succeeds it has stored the account id of the home
    document and derived the URLs again from it. *)
Lemma getIDs_captures_account name_or_id s w hs account_id data rest :
  _authHeader s = Some hs ->
  transport w = Ok2xx (HomeData account_id data) :: rest ->
  out (getIDs name_or_id s w) = Returned tt ->
  _accountId (obj (getIDs name_or_id s w)) = Some account_id
  /\ urls (obj (getIDs name_or_id s w)) = createBlinkUrls (Some account_id) (_regionId s).
Proof.
  intros Hh Ht. remember (getIDs name_or_id s w) as r eqn:Hr.
  unfold getIDs in Hr. rewrite bind_this, Hh in Hr. unfold request_get in Hr.
  rewrite (bind_request_answered _ _ _ _ _ _ _ _ _ Ht) in Hr. cbv iota in Hr.
  destruct name_or_id;
    try (unfold bind at 1 2 in Hr; rewrite getIDs_loop in Hr;
         cbn [out obj env] in Hr;
         destruct (existsb _ _); subst r; [|discriminate];
         by destruct (List.filter _ _)).
  subst r. by destruct (SummaryResponse.networks data).
Qed.

(** [getCameras] only ever adds to the trace. *)
Lemma getCameras_trace s w :
  exists later, trace (env (getCameras s w)) = (trace w ++ later)%list.
Proof.
  unfold getCameras. unfold bind at 1. unfold getSummary. rewrite bind_this.
  destruct (_authHeader s) as [hs|]; [|exists []; cbn; by rewrite app_nil_r].
  unfold request_get.
  exists [Request GET (BlinkUrls.homeUrl (urls s)) hs NoBody].
  destruct (transport w) as [|a rest] eqn:Ht.
  - unfold bind. by rewrite (request_pending _ _ _ _ _ _ Ht).
  - rewrite (bind_request_answered _ _ _ _ _ _ _ _ _ Ht).
    destruct a as [[r|account_id data|vs|raw]|err]; try done.
    cbn [ret out obj env].
    match goal with |- context [bind (forEach addDevice ?l) _ s ?w1] =>
      destruct (forEach_addDevice l s w1) as (s' & Hrun & _) end.
    unfold bind at 1. by rewrite Hrun.
Qed.

Lemma _setupWithToken_spec s w :
  _setupWithToken s w =
    {| out := Returned tt;
       obj := set_urls (createBlinkUrls (_accountId s) (_regionId s))
                (set_authHeader (Some (token_header (_token s)))
                   (set_host (Some ("rest-" +:+ Js.tpl_str (_regionId s) +:+ "." +:+ BLINK_URL)) s));
       env := w |}.
Proof. reflexivity. Qed.

(** C10: when [_accountId] is still [null], [_setupWithToken] derives
    [armUrl], [videoUrl] and [homeUrl] with the text "null" in place of
    the account id, leaves [_accountId] null, and the first request of
    [init] on the token path is the GET of that [homeUrl]; a [getIDs]
    that succeeds stores the account id of the home document and derives
    the URLs from it. *)
Theorem token_setup_null_account fuel name_or_id s w :
  _accountId s = None ->
  Js.opt_truthy (_token s) = true ->
  Js.opt_truthy (_regionId s) = true ->
  let base := "https://rest-" +:+ Js.tpl_str (_regionId s) +:+ "." +:+ BLINK_URL in
  let r := _setupWithToken s w in
  (out r = Returned tt /\ env r = w /\ _accountId (obj r) = None
   /\ BlinkUrls.armUrl (urls (obj r)) = base +:+ "/api/v1/accounts/null/networks/"
   /\ BlinkUrls.videoUrl (urls (obj r)) = base +:+ "/api/v1/accounts/null/media/changed"
   /\ BlinkUrls.homeUrl (urls (obj r)) = base +:+ "/api/v3/accounts/null/homescreen")
  /\ (exists later,
       trace (env (init fuel name_or_id s w)) =
         (trace w ++
          Request GET (base +:+ "/api/v3/accounts/null/homescreen")
            (token_header (_token s)) NoBody :: later)%list)
  /\ (forall account_id data rest,
       transport w = Ok2xx (HomeData account_id data) :: rest ->
       let r' := getIDs name_or_id (obj r) (env r) in
       out r' = Returned tt ->
       _accountId (obj r') = Some account_id
       /\ BlinkUrls.homeUrl (urls (obj r')) =
            base +:+ "/api/v3/accounts/" +:+ Js.num_to_string account_id +:+ "/homescreen").
Proof.
  intros Hacc Htok Hreg base r. split; [|split].
  - subst r base. rewrite _setupWithToken_spec. cbn. by rewrite Hacc.
  - unfold init. rewrite bind_this, Htok, Hreg, orb_true_r. cbn [negb andb].
    unfold bind at 1. rewrite _setupWithToken_spec. cbn [out obj env].
    set (s1 := set_urls _ _).
    assert (Hh1 : _authHeader s1 = Some (token_header (_token s))) by done.
    assert (Hurl : BlinkUrls.homeUrl (urls s1) = base +:+ "/api/v3/accounts/null/homescreen").
    { subst s1 base. cbn. by rewrite Hacc. }
    pose proof (getIDs_trace name_or_id s1 w _ Hh1) as Htr. rewrite Hurl in Htr.
    unfold bind at 1.
    destruct (getIDs name_or_id s1 w) as [[[]| | |] s2 w2]; cbn [out obj env] in *;
      try (exists []; done).
    unfold bind at 1.
    destruct (getCameras_trace s2 w2) as (later & Hlater).
    exists later.
    destruct (getCameras s2 w2) as [[ds| | |] s3 w3]; cbn [out obj env ret] in *;
      by rewrite Hlater, Htr, <- app_assoc.
  - intros account_id data rest Ht r' Hout. subst r' r.
    rewrite _setupWithToken_spec in *. cbn [out obj env] in *.
    eapply getIDs_captures_account in Hout as [Ha Hu]; [|done|exact Ht].
    by rewrite Ha, Hu.
Qed.

(** *** The device record *)

(** C9: [update(values)] replaces [_data], derives [_thumbUrl] and
    [_clipUrl] from the device's base URL and the new thumbnail path, and
    leaves [_armLink], [_imageLink], [_authHeader], [urls] (and the
    cached motion) as they were. *)
Theorem update_rederives_thumb_and_clip (d : BlinkDevice.t) (values : BlinkDeviceResponse.t) :
  let d' := BlinkDevice.update values d in
  BlinkDevice._data d' = values
  /\ BlinkDevice.thumbnail d' =
       BlinkUrls.baseUrl (BlinkDevice.urls d) +:+ BlinkDeviceResponse.thumbnail values +:+ ".jpg"
  /\ BlinkDevice.clipUrl d' =
       BlinkUrls.baseUrl (BlinkDevice.urls d) +:+ BlinkDeviceResponse.thumbnail values +:+ ".mp4"
  /\ BlinkDevice.armLink d' = BlinkDevice.armLink d
  /\ BlinkDevice.imageLink d' = BlinkDevice.imageLink d
  /\ BlinkDevice.header d' = BlinkDevice.header d
  /\ BlinkDevice.urls d' = BlinkDevice.urls d
  /\ BlinkDevice.motion d' = BlinkDevice.motion d.
Proof. done. Qed.

End Spec.

(** *** The runs behind the statements above, on sample inputs *)

#[local] Existing Instance Sample.constants.

(** C1: on the entry [{video_url:"/media/1.mp4", type:"motion",
    camera_id:5, created_at:1000}] and the base URL
    [https://rest-u001.example.com], [getLastMotions] returns for camera
    5 an event whose [image] is the video URL itself, extension
    [.mp4] included: the pattern of the replacement never matches. *)
Theorem getLastMotions_image_keeps_extension :
  out (@getLastMotions
         (Sample.established [Sample.home] [Sample.camera5])
         (Sample.world [Ok2xx (VideoData [Sample.motion_video])] []))
  = Returned
      {[ 5 := {| MotionEvent.video := "https://rest-u001.example.com/media/1.mp4";
                 MotionEvent.image := "https://rest-u001.example.com/media/1.mp4";
                 MotionEvent.time := 1000 |} ]}.
Proof. vm_compute. reflexivity. Qed.

(** C2, counterexample: a fresh 2FA controller, a login answer asking
    for verification, the pin ["123456"], and a failing pin request. The
    session was empty before and is not afterwards. *)
Lemma pin_failure_partial_session :
  let s := Sample.fresh true in
  let w := Sample.world
             [Ok2xx (LoginData Sample.login_needs_code); Failure (Some "{}")]
             ["123456"] in
  let r := @_getAuthToken Sample.constants 1 0 s w in
  Session.empty s
  /\ out r = Unsettled (Some (BlinkAuthenticationException
               (Text "Authentication problem (verify response): {}")))
  /\ ~ Session.empty (obj r)
  /\ _token (obj r) = Some "tok"
  /\ _accountId (obj r) = Some 7
  /\ _region (obj r) = Some "eu"
  /\ _regionId (obj r) = Some "e001"
  /\ _authHeader (obj r) = None
  /\ urls (obj r) = BlinkUrls.empty.
Proof.
  cbv zeta. split_and!; try (vm_compute; reflexivity).
  - by repeat split.
  - intros (Htok & _). vm_compute in Htok. discriminate.
Qed.

Lemma pin_failure_session_witness :
  let s := Sample.fresh true in
  let r := @_getAuthToken Sample.constants 1 0 s
             (Sample.world
                [Ok2xx (LoginData Sample.login_needs_code); Failure (Some "{}")]
                ["123456"]) in
  out r = Unsettled (Some (BlinkAuthenticationException
            (Text ("Authentication problem (verify response): " +:+ stringify (Some "{}")))))
  /\ _authHeader (obj r) = _authHeader s
  /\ urls (obj r) = urls s
  /\ _host (obj r) = _host s
  /\ _token (obj r) = Some "tok"
  /\ _accountId (obj r) = Some 7
  /\ _region (obj r) = Some "eu"
  /\ _regionId (obj r) = Some "e001".
Proof.
  apply (@pin_failure_session Sample.constants 0 0 (Sample.fresh true)
           (Sample.world
              [Ok2xx (LoginData Sample.login_needs_code); Failure (Some "{}")]
              ["123456"])
           "user@example.com" "secret" "device-1" Sample.login_needs_code
           (Some "{}") [] "123456" []); reflexivity.
Defined.

(** C3, counterexample: on a fresh controller, whose session is empty,
    [getVideos()] hands its request to the transport; the failure it
    reports is the transport's. *)
Lemma getVideos_unguarded :
  let s := Sample.fresh false in
  let r := @getVideos None None s (Sample.world [Failure None] []) in
  _authHeader s = None
  /\ out r = Thrown (BlinkException "Can't fetch videos")
  /\ trace (env r) =
       [Request GET "?since=1970-01-01T00:00:02.008Z&page=0" ∅ NoBody]
  /\ transport (env r) = [].
Proof. cbv zeta. split_and!; vm_compute; reflexivity. Qed.

Lemma empty_session_guards_witness :
  let s := Sample.fresh false in
  let w := Sample.world [Ok2xx (VideoData [])] [] in
  _authHeader s = None
  /\ @getSummary s w = throw (BlinkException "Authentication token must be set") s w
  /\ @getCameras s w = throw (BlinkException "Authentication token must be set") s w.
Proof.
  cbv zeta. split; [reflexivity|].
  pose proof (empty_session_guards (Sample.fresh false)
                (Sample.world [Ok2xx (VideoData [])] []) eq_refl)
    as (Hsummary & _ & Hcameras & _).
  exact (conj Hsummary Hcameras).
Defined.

(** C4, counterexample: the device id is the empty string, and the
    login request is posted all the same, by [_getAuthToken] and by
    [init]. *)
Lemma empty_deviceId_reaches_transport :
  let s := Sample.fresh_empty_deviceId in
  let w := Sample.world [Failure None] [] in
  let login :=
    Request POST "https://rest-prod.example.com/api/v5/account/login"
      {[ "Content-Type" := "application/json" ]}
      (LoginBody (loginData s "user@example.com" "secret" "" "abcdef01")) in
  _deviceId s = Js.VStr ""
  /\ out (_getAuthToken 1 0 s w)
     = Thrown (BlinkAuthenticationException
                 (Text "Authentication problem (response): undefined"))
  /\ trace (env (_getAuthToken 1 0 s w)) = [login]
  /\ trace (env (init 1 Js.VUndefined s w)) = [login].
Proof. cbv zeta. split_and!; vm_compute; reflexivity. Qed.

Lemma non_string_credentials_rejected_witness :
  let s := constructor Js.VUndefined (Js.VStr "secret") (Js.VStr "device-1")
             (Sample.options false) in
  let w := Sample.world [] [] in
  Js.typeof (_username s) <> Js.TString
  /\ exists msg,
       @_getAuthToken Sample.constants 1 0 s w =
         {| out := Thrown (BlinkAuthenticationException (Text msg)); obj := s; env := w |}.
Proof.
  cbv zeta. split; [discriminate|].
  apply (@non_string_credentials_rejected Sample.constants 0 0). left. discriminate.
Defined.

Lemma verification_retry_once_witness :
  let s := Sample.fresh false in
  let r := @_getAuthToken Sample.constants 2 0 s
             (Sample.world
                [Ok2xx (LoginData Sample.login_needs_code);
                 Ok2xx (LoginData Sample.login_needs_code)] []) in
  out r = Thrown (BlinkAuthenticationException
            (Text "Authentication problem (retry): verification timeout"))
  /\ obj r = s.
Proof.
  cbv zeta.
  destruct (@verification_retry_once Sample.constants 0 (Sample.fresh false)
              (Sample.world
                 [Ok2xx (LoginData Sample.login_needs_code);
                  Ok2xx (LoginData Sample.login_needs_code)] [])
              "user@example.com" "secret" "device-1" Sample.login_needs_code
              (Ok2xx (LoginData Sample.login_needs_code)) []
              eq_refl eq_refl eq_refl eq_refl eq_refl eq_refl)
    as (_ & _ & Hthrown).
  exact (Hthrown _ eq_refl eq_refl).
Defined.

(** Selected networks [{1}], cameras on the networks 1 and 2: only the
    first camera is returned. *)
Lemma getSummary_selected_only_witness :
  let s := Sample.established [Sample.home] [] in
  let doc := Sample.summary [Sample.home; Sample.cabin]
               [Sample.descriptor 5 1 "camera" "/thumb/5";
                Sample.descriptor 6 2 "camera" "/thumb/6"] [] in
  exists result,
    out (@getSummary s (Sample.world [Ok2xx (HomeData 7 doc)] [])) = Returned result
    /\ SummaryResponse.cameras result = [Sample.descriptor 5 1 "camera" "/thumb/5"]
    /\ forall c, c ∈ SummaryResponse.cameras result ->
         BlinkDeviceResponse.network_id c ∈ map BlinkNetwork.id (_networks s).
Proof.
  cbv zeta.
  destruct (getSummary_selected_only
              (Sample.established [Sample.home] [])
              (Sample.world
                 [Ok2xx (HomeData 7
                    (Sample.summary [Sample.home; Sample.cabin]
                       [Sample.descriptor 5 1 "camera" "/thumb/5";
                        Sample.descriptor 6 2 "camera" "/thumb/6"] []))] [])
              (token_header (Some "tok")) 7 _ [] eq_refl eq_refl)
    as (result & Hout & _ & _ & Hcameras & _).
  exists result. split; [exact Hout|]. split.
  - vm_compute in Hout. injection Hout as <-. reflexivity.
  - intros c Hc. by apply Hcameras.
Defined.

(** Camera 5 discovered twice, the second time with another thumbnail:
    one record, with the second thumbnail. *)
Lemma getCameras_replaces_by_id_witness :
  let s := Sample.established [Sample.home] [] in
  let w := Sample.world
             [Ok2xx (HomeData 7
                (Sample.summary [Sample.home] [Sample.descriptor 5 1 "camera" "/thumb/old"] []));
              Ok2xx (HomeData 7
                (Sample.summary [Sample.home] [Sample.descriptor 5 1 "camera" "/thumb/new"] []))]
             [] in
  let second := @getCameras (obj (@getCameras s w)) (env (@getCameras s w)) in
  NoDup (map BlinkDevice.id (_devices (obj second)))
  /\ map BlinkDevice.thumbnail (_devices (obj second))
     = ["https://rest-u001.example.com/thumb/new.jpg"].
Proof.
  cbv zeta. split; [|vm_compute; reflexivity].
  apply (getCameras_replaces_by_id
           (Sample.established [Sample.home] [])
           (Sample.world
              [Ok2xx (HomeData 7
                 (Sample.summary [Sample.home] [Sample.descriptor 5 1 "camera" "/thumb/old"] []));
               Ok2xx (HomeData 7
                 (Sample.summary [Sample.home] [Sample.descriptor 5 1 "camera" "/thumb/new"] []))]
              [])
           (token_header (Some "tok")) 7 _ 7 _ [] eq_refl (NoDup_nil_2 : NoDup (map BlinkDevice.id [])) eq_refl).
Defined.



Lemma token_setup_null_account_witness :
  let s := Sample.resumed in
  let w := Sample.world [] [] in
  BlinkUrls.homeUrl (urls (obj (@_setupWithToken Sample.constants s w)))
  = "https://rest-u001.example.com/api/v3/accounts/null/homescreen"
  /\ exists later,
       trace (env (@init Sample.constants 1 Js.VUndefined s w)) =
         Request GET "https://rest-u001.example.com/api/v3/accounts/null/homescreen"
           (token_header (Some "tok")) NoBody :: later.
Proof.
  cbv zeta.
  destruct (@token_setup_null_account Sample.constants 1 Js.VUndefined
              Sample.resumed (Sample.world [] []) eq_refl eq_refl eq_refl)
    as ((_ & _ & _ & _ & _ & Hhome) & Hinit & _).
  exact (conj Hhome Hinit).
Defined.
End Spec.

(** ** Numbers and their decimal strings *)

Module JsFacts.
Import Js Views Decimal DecimalPos.

Lemma chars_digits d : Forall digit (chars d).
Proof. induction d; constructor; (done || by eexists). Qed.

Lemma digit_not_ws c : digit c -> is_ws c = false.
Proof.
  destruct c as [[] [] [] [] [] [] [] []]; intros [v Hv]; try discriminate Hv; reflexivity.
Qed.

Lemma drop_ws_id l : Forall (fun c => is_ws c = false) l -> drop_ws l = l.
Proof. intros [|c l' Hc _]; [done|]. cbn. by rewrite Hc. Qed.

Lemma trim_id l : Forall (fun c => is_ws c = false) l -> trim l = l.
Proof.
  intros Hl. unfold trim. rewrite (drop_ws_id l Hl).
  rewrite drop_ws_id; [apply rev_involutive|]. by apply Forall_rev.
Qed.

Lemma digits_val_acc d acc :
  digits_val 10 (Zpos acc) (chars d) = Some (Zpos (Pos.of_uint_acc d acc)).
Proof.
  revert acc. induction d; intros acc; [done|..];
    cbn [chars NilEmpty.string_of_uint list_ascii_of_string digits_val];
    change (list_ascii_of_string (NilEmpty.string_of_uint d)) with (chars d);
    match goal with |- context [digit_in 10 ?c] =>
      let v := eval vm_compute in (digit_in 10 c) in change (digit_in 10 c) with v end;
    cbv iota beta; cbn [Pos.of_uint_acc]; rewrite <- IHd; f_equal; lia.
Qed.

Lemma digits_val_0 d :
  digits_val 10 0 (chars d) = Some (Z.of_N (Pos.of_uint d)).
Proof.
  induction d; [done|..];
    cbn [chars NilEmpty.string_of_uint list_ascii_of_string digits_val];
    change (list_ascii_of_string (NilEmpty.string_of_uint d)) with (chars d);
    match goal with |- context [digit_in 10 ?c] =>
      let v := eval vm_compute in (digit_in 10 c) in change (digit_in 10 c) with v end;
    cbv iota beta; cbn [Pos.of_uint Z.mul Z.add];
    first [exact IHd | apply digits_val_acc].
Qed.

Lemma span_digits_all l : Forall digit l -> span_digits l = (l, []).
Proof.
  induction 1 as [|c l [v Hv] _ IH]; [done|]. cbn. by rewrite Hv, IH.
Qed.

Lemma parse_decimal_chars d :
  d <> Nil -> parse_decimal (chars d) = Some (Z.of_N (Pos.of_uint d)).
Proof.
  intros Hd. unfold parse_decimal. rewrite (span_digits_all _ (chars_digits d)).
  rewrite app_nil_r. assert (Hne : chars d <> []) by (by destruct d).
  destruct (chars d) as [|c l] eqn:Hc; [done|]. rewrite <- Hc, digits_val_0.
  cbn. by rewrite Z.mul_1_r.
Qed.

(** The prefix test of [string_to_integer] on a string of digits. *)
Lemma string_to_integer_digits l :
  l <> [] -> Forall digit l ->
  string_to_integer (string_of_list_ascii l) = parse_decimal l.
Proof.
  intros Hne Hl. unfold string_to_integer. rewrite list_ascii_of_string_of_list_ascii.
  rewrite trim_id by (eapply Forall_impl; [exact Hl|apply digit_not_ws]).
  destruct Hl as [|c1 l1 [v1 Hv1] Hl1]; [done|].
  destruct c1 as [[] [] [] [] [] [] [] []]; try discriminate Hv1;
    try (cbn [signed]; by destruct (parse_decimal _)).
  destruct Hl1 as [|c2 l2 [v2 Hv2] _]; [reflexivity|].
  destruct c2 as [[] [] [] [] [] [] [] []]; try discriminate Hv2;
    cbn [signed]; by destruct (parse_decimal _).
Qed.

Lemma to_uint_nonnil p : Pos.to_uint p <> Nil.
Proof.
  intros Hnil. pose proof (DecimalPos.Unsigned.of_to p) as Hp.
  rewrite Hnil in Hp. discriminate Hp.
Qed.

Lemma string_to_integer_num_to_string n :
  string_to_integer (num_to_string n) = Some n.
Proof.
  unfold num_to_string. destruct n as [|p|p]; [reflexivity|..].
  - cbn [Z.to_int NilZero.string_of_int].
    pose proof (to_uint_nonnil p) as Hd.
    assert (Hs : NilZero.string_of_uint (Pos.to_uint p)
                 = string_of_list_ascii (chars (Pos.to_uint p))).
    { unfold chars. rewrite string_of_list_ascii_of_string. by destruct (Pos.to_uint p). }
    rewrite Hs, string_to_integer_digits; [|by destruct (Pos.to_uint p)|apply chars_digits].
    by rewrite parse_decimal_chars, DecimalPos.Unsigned.of_to.
  - cbn [Z.to_int NilZero.string_of_int].
    pose proof (to_uint_nonnil p) as Hd.
    assert (Hs : NilZero.string_of_uint (Pos.to_uint p)
                 = NilEmpty.string_of_uint (Pos.to_uint p)) by (by destruct (Pos.to_uint p)).
    rewrite Hs. unfold string_to_integer.
    cbn [list_ascii_of_string]. fold (chars (Pos.to_uint p)).
    rewrite trim_id.
    + cbn [signed]. rewrite parse_decimal_chars, DecimalPos.Unsigned.of_to by done.
      reflexivity.
    + constructor; [reflexivity|].
      eapply Forall_impl; [apply chars_digits|apply digit_not_ws].
Qed.
Lemma num_to_string_inj n m : num_to_string n = num_to_string m -> n = m.
Proof.
  intros Heq. pose proof (string_to_integer_num_to_string n) as Hn.
  rewrite Heq, string_to_integer_num_to_string in Hn. congruence.
Qed.

Lemma num_to_string_not_null n : num_to_string n <> "null".
Proof.
  intros Heq. pose proof (string_to_integer_num_to_string n) as Hn.
  rewrite Heq in Hn. discriminate Hn.
Qed.

Lemma tpl_num_inj o o' : tpl_num o = tpl_num o' -> o = o'.
Proof.
  destruct o as [n|], o' as [m|]; cbn [tpl_num]; intros Heq.
  - f_equal. by apply num_to_string_inj.
  - by apply num_to_string_not_null in Heq.
  - symmetry in Heq. by apply num_to_string_not_null in Heq.
  - reflexivity.
Qed.

Lemma append_cancel_l (p a b : string) : p +:+ a = p +:+ b -> a = b.
Proof.
  induction p as [|c p IH]; [done|].
  change (String c p +:+ a) with (String c (p +:+ a)).
  change (String c p +:+ b) with (String c (p +:+ b)).
  intros [= Heq]. by apply IH.
Qed.

Lemma list_ascii_of_append (a b : string) :
  list_ascii_of_string (a +:+ b)
  = (list_ascii_of_string a ++ list_ascii_of_string b)%list.
Proof.
  induction a as [|c a IH]; [done|].
  change (String c a +:+ b) with (String c (a +:+ b)).
  cbn [list_ascii_of_string app]. by rewrite IH.
Qed.

Lemma append_cancel_r (t a b : string) : a +:+ t = b +:+ t -> a = b.
Proof.
  intros Heq. apply (f_equal list_ascii_of_string) in Heq.
  rewrite !list_ascii_of_append in Heq. apply app_inv_tail in Heq.
  apply (f_equal string_of_list_ascii) in Heq.
  by rewrite !string_of_list_ascii_of_string in Heq.
Qed.
End JsFacts.

(** ** The URL resolver *)

Module UrlFacts.
Import JsFacts.

Section UrlFacts.
Context `{Constants}.

(** X1: For one region, two different account ids (null counted as one
    more id) give different home, arm and video URLs: createBlinkUrls
    never sends two accounts to the same address. *)
Theorem createBlinkUrls_separates_accounts accountId accountId' regionId :
  accountId <> accountId' ->
  BlinkUrls.homeUrl (createBlinkUrls accountId regionId)
    <> BlinkUrls.homeUrl (createBlinkUrls accountId' regionId)
  /\ BlinkUrls.armUrl (createBlinkUrls accountId regionId)
      <> BlinkUrls.armUrl (createBlinkUrls accountId' regionId)
  /\ BlinkUrls.videoUrl (createBlinkUrls accountId regionId)
      <> BlinkUrls.videoUrl (createBlinkUrls accountId' regionId).
Proof.
  intros Hne. unfold createBlinkUrls.
  cbn [BlinkUrls.homeUrl BlinkUrls.armUrl BlinkUrls.videoUrl].
  split_and!; intros Heq; apply Hne;
    apply append_cancel_l, append_cancel_l, append_cancel_r in Heq;
    by apply tpl_num_inj.
Qed.

(** X2: Two different region ids give different base URLs, whatever the
    account ids. *)
Theorem createBlinkUrls_separates_regions accountId accountId' region region' :
  region <> region' ->
  BlinkUrls.baseUrl (createBlinkUrls accountId (Some region))
    <> BlinkUrls.baseUrl (createBlinkUrls accountId' (Some region')).
Proof.
  intros Hne. unfold createBlinkUrls. cbn [BlinkUrls.baseUrl Js.tpl_str].
  intros Heq. apply Hne. apply append_cancel_l in Heq.
  by apply (append_cancel_r ("." +:+ BLINK_URL)).
Qed.
End UrlFacts.
End UrlFacts.

(** ** The notification key *)

Module GuidFacts.
Import Promise.

Section GuidFacts.
Context {S : Type}.
Implicit Types (s : S) (w : World).

Lemma charAt_guid_chars k :
  (k < 16)%nat ->
  exists c, charAt guid_chars k = String c EmptyString
            /\ In c (list_ascii_of_string guid_chars).
Proof.
  intros Hk. do 16 (destruct k as [|k]; [eexists; split; [reflexivity|cbn; tauto]|]).
  lia.
Qed.

(** X3: guid(n) always returns a key of exactly n characters, each one of
    'abcdef0123456789'; it draws n random numbers and touches neither the
    caller's state, nor the request log, nor the pending answers, nor the
    input lines. *)
Theorem guid_key n s w :
  exists key w',
    guid n s w = {| out := Returned key; obj := s; env := w' |}
    /\ String.length key = n
    /\ (forall c, In c (list_ascii_of_string key) -> In c (list_ascii_of_string guid_chars))
    /\ trace w' = trace w
    /\ transport w' = transport w
    /\ stdin w' = stdin w
    /\ drawn w' = (drawn w + n)%nat.
Proof.
  revert w. induction n as [|n IH]; intros w; cbn [guid].
  - exists "", w. cbn. split_and!; try done; lia.
  - unfold bind at 1, random16. cbn [out obj env].
    destruct (IH (draw w)) as (rest & w' & Hrun & Hlen & Hin & Htr & Htp & Hst & Hdr).
    destruct (charAt_guid_chars (random w (drawn w) mod 16)) as (c & Hc & Hcin).
    { apply Nat.mod_upper_bound. lia. }
    unfold bind. rewrite Hrun. cbn [out obj env ret]. rewrite Hc.
    exists (String c rest), w'. split_and!; try done.
    + cbn. by rewrite Hlen.
    + intros c' [<-|Hc']; [exact Hcin|by apply Hin].
    + rewrite Hdr. cbn [draw drawn]. lia.
Qed.
End GuidFacts.
End GuidFacts.

(** ** The session engine *)

Module SessionFacts.
Import BlinkCameraSystem Promise PromiseFacts Views.
Local Open Scope promise_scope.

Section SessionFacts.
Context `{Constants}.
Implicit Types (s : t) (w : World).

Lemma finalize_spec account s w :
  bind (assign (set_regionId (Some (LoginResponse.tier account))))
    (fun _ => bind (assign (set_region (LoginResponse.region account)))
    (fun _ => bind (assign (set_token (Some (LoginResponse.token account))))
    (fun _ => bind (assign (set_accountId (Some (LoginResponse.account_id account))))
    (fun _ => bind saveAuthResult (fun _ => ret Js.VUndefined))))) s w
  = {| out := Returned Js.VUndefined; obj := loggedIn account s; env := w |}.
Proof. reflexivity. Qed.

(** X4: When the login request is answered with an account that needs no
    verification and has a region, _getAuthToken returns undefined after
    that single POST (to LOGIN_URL_2FA with auth2fa, to LOGIN_URL
    without), and leaves the session complete: token, account id, region
    and region id from the answer, the token-auth header, the host and the
    URLs of that account and tier. *)
Theorem login_finalizes_session fuel retries s w username password deviceId account rest :
  _username s = Js.VStr username ->
  _password s = Js.VStr password ->
  _deviceId s = Js.VStr deviceId ->
  transport w = Ok2xx (LoginData account) :: rest ->
  Session.verification_required account = false ->
  Js.opt_truthy (LoginResponse.region account) = true ->
  let r := _getAuthToken (S fuel) retries s w in
  out r = Returned Js.VUndefined
  /\ obj r = loggedIn account s
  /\ transport (env r) = rest
  /\ exists key,
       trace (env r) =
         (trace w ++
          [Request POST (if _auth2fa s then LOGIN_URL_2FA else LOGIN_URL)
             {[ "Content-Type" := "application/json" ]}
             (LoginBody (loginData s username password deviceId key))])%list.
Proof.
  intros Hu Hp Hd Ht Hv Hreg r.
  destruct (Spec.login_attempt fuel retries s w _ _ _ _ _ Hu Hp Hd Ht)
    as (key & w1 & Ht1 & _ & Hr1 & Hrun).
  rewrite Hv, Hreg in Hrun. cbn [negb] in Hrun. rewrite finalize_spec in Hrun.
  subst r. rewrite Hrun. cbn [out obj env]. split_and!; try done. by exists key.
Qed.



Lemma verifyPin_answered hs account pin s w p rest :
  transport w = Ok2xx p :: rest ->
  verifyPin hs account pin s w =
    {| out := Returned (Js.VBool true);
       obj := loggedIn account s;
       env := pop_transport
                (log (Request POST
                        (BlinkUrls.baseUrl
                           (createBlinkUrls (Some (LoginResponse.account_id account))
                              (Some (LoginResponse.tier account)))
                         +:+ "/api/v4/account/"
                         +:+ Js.num_to_string (LoginResponse.account_id account)
                         +:+ "/client/" +:+ Js.num_to_string (LoginResponse.client_id account)
                         +:+ "/pin/verify")
                        (<["token-auth" := LoginResponse.token account]> hs)
                        (PinBody pin)) w) |}.
Proof.
  intros Ht. unfold verifyPin. rewrite !bind_assign. unfold request_post.
  rewrite (bind_request_answered _ _ _ _ _ _ _ _ _ Ht). reflexivity.
Qed.

(** X6: With auth2fa, when the login answer asks for verification and the
    pin request is answered, _getAuthToken resolves to true with the
    session complete, after exactly: the login POST, the prompt for the
    code, and the POST of the typed pin to
    /api/v4/account/<account>/client/<client>/pin/verify of the account's
    tier with the new token; one input line and two answers are consumed. *)
Theorem pin_success_finalizes fuel retries s w username password deviceId
    account p rest pin lines :
  _username s = Js.VStr username ->
  _password s = Js.VStr password ->
  _deviceId s = Js.VStr deviceId ->
  _auth2fa s = true ->
  transport w = Ok2xx (LoginData account) :: Ok2xx p :: rest ->
  Session.verification_required account = true ->
  stdin w = pin :: lines ->
  let r := _getAuthToken (S fuel) retries s w in
  out r = Returned (Js.VBool true)
  /\ obj r = loggedIn account s
  /\ transport (env r) = rest
  /\ stdin (env r) = lines
  /\ exists key,
       trace (env r) =
         (trace w ++
          [Request POST LOGIN_URL_2FA {[ "Content-Type" := "application/json" ]}
             (LoginBody (loginData s username password deviceId key));
           Question ("Enter the verification code sent to " +:+ username +:+ ": ");
           Request POST
             (("https://rest-" +:+ LoginResponse.tier account +:+ "." +:+ BLINK_URL)
                +:+ "/api/v4/account/" +:+ Js.num_to_string (LoginResponse.account_id account)
                +:+ "/client/" +:+ Js.num_to_string (LoginResponse.client_id account)
                +:+ "/pin/verify")
             {[ "token-auth" := LoginResponse.token account;
                "Content-Type" := "application/json" ]}
             (PinBody pin)])%list.
Proof.
  intros Hu Hp Hd H2fa Ht Hv Hin r.
  destruct (Spec.login_attempt fuel retries s w _ _ _ _ _ Hu Hp Hd Ht)
    as (key & w1 & Ht1 & Hs1 & Hr1 & Hrun).
  rewrite Hv, H2fa in Hrun. cbn [negb] in Hrun.
  unfold bind at 1, question in Hrun. cbn [log stdin] in Hrun.
  rewrite Hs1, Hin in Hrun. cbn [out obj env] in Hrun.
  unfold detached in Hrun.
  rewrite (verifyPin_answered _ _ _ _ _ p rest) in Hrun by done.
  cbn [out obj env] in Hrun.
  subst r. rewrite Hrun. cbn [out obj env]. split_and!; try done.
  - cbn. by rewrite Ht1.
  - cbn. by rewrite Hs1, Hin.
  - exists key. cbn [pop_transport pop_stdin log trace]. rewrite Hr1, H2fa.
    by rewrite <- !app_assoc.
Qed.

(** X7: Without auth2fa, when the first login answer asks for verification
    and the second does not, _getAuthToken() retries once and ends with
    the session of the second answer, both answers consumed. *)
Theorem retry_then_login fuel s w username password deviceId r1 account rest :
  _username s = Js.VStr username ->
  _password s = Js.VStr password ->
  _deviceId s = Js.VStr deviceId ->
  _auth2fa s = false ->
  transport w = Ok2xx (LoginData r1) :: Ok2xx (LoginData account) :: rest ->
  Session.verification_required r1 = true ->
  Session.verification_required account = false ->
  Js.opt_truthy (LoginResponse.region account) = true ->
  let r := _getAuthToken (S (S fuel)) 0 s w in
  out r = Returned Js.VUndefined
  /\ obj r = loggedIn account s
  /\ transport (env r) = rest.
Proof.
  intros Hu Hp Hd H2fa Ht Hv1 Hv2 Hreg r.
  destruct (Spec.login_attempt (S fuel) 0 s w _ _ _ _ _ Hu Hp Hd Ht)
    as (key1 & w1 & Ht1 & _ & _ & Hrun).
  rewrite Hv1, H2fa in Hrun. cbn [negb Z.eqb] in Hrun.
  unfold bind at 1, setTimeout in Hrun. cbn [out obj env] in Hrun.
  destruct (Spec.login_attempt fuel (0 + 1) s (log (Timeout (_verificationTimeout s)) w1)
              _ _ _ _ _ Hu Hp Hd Ht1)
    as (key2 & w3 & Ht3 & _ & _ & Hretry).
  rewrite Hretry, Hv2, Hreg in Hrun. cbn [negb] in Hrun. rewrite finalize_spec in Hrun.
  subst r. by rewrite Hrun.
Qed.

(** X8: When the login request fails, _getAuthToken throws
    BlinkAuthenticationException 'Authentication problem (response): <JSON
    of the error body, or undefined>'; when it is answered without a
    region, it throws BlinkAuthenticationException carrying the answer; in
    both cases the controller is unchanged and exactly one answer is
    consumed. *)
Theorem login_errors fuel retries s w username password deviceId a rest :
  _username s = Js.VStr username ->
  _password s = Js.VStr password ->
  _deviceId s = Js.VStr deviceId ->
  transport w = a :: rest ->
  let r := _getAuthToken (S fuel) retries s w in
  (forall data, a = Failure data ->
     out r = Thrown (BlinkAuthenticationException
                       (Text ("Authentication problem (response): "
                              +:+ default "undefined" data))))
  /\ (forall account,
        a = Ok2xx (LoginData account) ->
        Session.verification_required account = false ->
        Js.opt_truthy (LoginResponse.region account) = false ->
        out r = Thrown (BlinkAuthenticationException (Data (LoginData account))))
  /\ ((exists data, a = Failure data)
      \/ (exists account, a = Ok2xx (LoginData account)
            /\ Session.verification_required account = false
            /\ Js.opt_truthy (LoginResponse.region account) = false) ->
      obj r = s /\ transport (env r) = rest).
Proof.
  intros Hu Hp Hd Ht r.
  destruct (Spec.login_attempt fuel retries s w _ _ _ _ _ Hu Hp Hd Ht)
    as (key & w1 & Ht1 & _ & _ & Hrun).
  subst r. rewrite Hrun. split_and!.
  - by intros data ->.
  - intros account -> Hv Hreg. by rewrite Hv, Hreg.
  - intros [[data ->]|(account & -> & Hv & Hreg)]; [done|]. by rewrite Hv, Hreg.
Qed.
End SessionFacts.
End SessionFacts.

(** ** The controller: networks, summaries, devices *)

Module ControllerFacts.
Import BlinkCameraSystem Promise PromiseFacts DeviceSet Views.
Local Open Scope promise_scope.

Section ControllerFacts.
Context `{Constants}.
Implicit Types (s : t) (w : World).

(** X9: Because getIDs compares with ==, a network is also selected by the
    decimal string of its id (getIDs('2') selects id 2), and a network
    whose name is the decimal text of a number is selected by that number. *)
Theorem getIDs_numeric_strings (n : BlinkNetwork.t) :
  matches (Js.VStr (Js.num_to_string (BlinkNetwork.id n))) n = true
  /\ (forall k, BlinkNetwork.name n = Js.num_to_string k -> matches (Js.VNum k) n = true).
Proof.
  unfold matches. cbn [Js.loose_eq_num Js.loose_eq_str]. split.
  - rewrite JsFacts.string_to_integer_num_to_string. cbn [Js.opt_Z_eqb].
    by rewrite Z.eqb_refl.
  - intros k ->. rewrite JsFacts.string_to_integer_num_to_string. cbn [Js.opt_Z_eqb].
    rewrite Z.eqb_refl. apply orb_true_r.
Qed.


Lemma getSummary_obj s w : obj (getSummary s w) = s.
Proof.
  unfold getSummary. rewrite bind_this. destruct (_authHeader s) as [hs|]; [|done].
  unfold bind, request_get.
  pose proof (request_trace (S:=t) GET (BlinkUrls.homeUrl (urls s)) hs NoBody s w) as [_ Hobj].
  destruct (request _ _ _ _ s w) as [[[d|[]]| | |] s' w']; cbn [out obj env] in *; done.
Qed.

(** *** Armed and online status *)

Lemma getSummary_answered s w hs account_id summary rest :
  _authHeader s = Some hs ->
  transport w = Ok2xx (HomeData account_id summary) :: rest ->
  getSummary s w =
    {| out := Returned (selected_part s summary); obj := s;
       env := pop_transport (log (Request GET (BlinkUrls.homeUrl (urls s)) hs NoBody) w) |}.
Proof.
  intros Hh Ht. unfold getSummary. rewrite bind_this, Hh. unfold request_get.
  by rewrite (bind_request_answered _ _ _ _ _ _ _ _ _ Ht).
Qed.

Lemma fold_insert_lookup {A V} (p : A -> bool) (k : A -> Z) (v : A -> V)
    (l : list A) (m0 : gmap Z V) (i : Z) :
  fold_left (fun m x => if p x then <[k x := v x]> m else m) l m0 !! i =
    match last_such (fun x => p x && Z.eqb (k x) i) l with
    | Some x => Some (v x)
    | None => m0 !! i
    end.
Proof.
  unfold last_such. induction l as [|x l IH] using rev_ind; [done|].
  rewrite fold_left_app, rev_app_distr. cbn [fold_left rev app List.find].
  destruct (p x); cbn [andb].
  - destruct (Z.eqb_spec (k x) i) as [<-|Hne].
    + by rewrite lookup_insert_eq.
    + by rewrite lookup_insert_ne.
  - exact IH.
Qed.

Lemma find_filter {A} (f q : A -> bool) (l : list A) :
  List.find q (List.filter f l) = List.find (fun x => f x && q x) l.
Proof.
  induction l as [|x l IH]; [done|]. cbn. destruct (f x); cbn; [by rewrite IH|done].
Qed.

Lemma filter_rev' {A} (f : A -> bool) (l : list A) :
  rev (List.filter f l) = List.filter f (rev l).
Proof.
  induction l as [|x l IH]; [done|]. cbn. rewrite List.filter_app. cbn.
  destruct (f x); cbn; [by rewrite IH|by rewrite IH, app_nil_r].
Qed.

Lemma last_such_filter {A} (f q : A -> bool) (l : list A) :
  last_such q (List.filter f l) = last_such (fun x => f x && q x) l.
Proof. unfold last_such. by rewrite filter_rev', find_filter. Qed.

Lemma find_ext' {A} (f g : A -> bool) (l : list A) :
  (forall x, f x = g x) -> List.find f l = List.find g l.
Proof. intros Hfg. induction l as [|x l IH]; [done|]. cbn. by rewrite Hfg, IH. Qed.

Lemma includes_selected s i :
  includes (map BlinkNetwork.id (networks s)) i = selected s i.
Proof.
  unfold includes, selected. induction (networks s) as [|n l IH]; [done|].
  cbn. by rewrite IH, (Z.eqb_sym i).
Qed.

(** X11: isArmed maps the id of each selected network of the answered
    summary to its armed flag, and nothing else; when the summary lists an
    id twice, the last entry wins. *)
Theorem isArmed_last_entry s w hs account_id summary rest :
  _authHeader s = Some hs ->
  transport w = Ok2xx (HomeData account_id summary) :: rest ->
  exists result,
    out (isArmed s w) = Returned result
    /\ forall i,
         result !! i =
           BlinkNetwork.armed <$>
             last_such (fun n => selected s (BlinkNetwork.id n) && Z.eqb (BlinkNetwork.id n) i)
               (SummaryResponse.networks summary).
Proof.
  intros Hh Ht. unfold isArmed. unfold bind at 1.
  rewrite (getSummary_answered s w hs account_id summary rest Hh Ht).
  cbn [out obj env]. rewrite bind_this. eexists. split; [reflexivity|].
  intros i. rewrite fold_insert_lookup. cbn [selected_part SummaryResponse.networks].
  rewrite last_such_filter, lookup_empty. unfold last_such.
  rewrite (find_ext' _
             (fun n => selected s (BlinkNetwork.id n) && Z.eqb (BlinkNetwork.id n) i)).
  - by destruct (List.find _ _).
  - intros n. rewrite includes_selected.
    by destruct (selected s (BlinkNetwork.id n)).
Qed.

(** X12: isOnline maps a network id to whether its sync module is
    'online', for the sync modules of selected networks that are among the
    requested ids (all selected networks when none is given); the last
    sync module of a network wins, and a network that is not selected
    never appears, even when requested. *)
Theorem isOnline_last_entry networkIds s w hs account_id summary rest :
  _authHeader s = Some hs ->
  transport w = Ok2xx (HomeData account_id summary) :: rest ->
  let requested :=
    match networkIds with
    | [] => map BlinkNetwork.id (networks s)
    | _ => networkIds
    end in
  exists result,
    out (isOnline networkIds s w) = Returned result
    /\ (forall i,
          result !! i =
            (fun m => match BlinkSyncModule.status m with
                      | BlinkSyncModule.online => true
                      | BlinkSyncModule.offline => false
                      end) <$>
              last_such
                (fun m => selected s (BlinkSyncModule.network_id m)
                          && (includes requested (BlinkSyncModule.network_id m)
                              && Z.eqb (BlinkSyncModule.network_id m) i))
                (SummaryResponse.sync_modules summary))
    /\ (forall i, selected s i = false -> result !! i = None).
Proof.
  intros Hh Ht requested. unfold isOnline. rewrite bind_this. unfold bind at 1.
  rewrite (getSummary_answered s w hs account_id summary rest Hh Ht).
  cbn [out obj env]. fold requested. eexists. split; [reflexivity|].
  assert (Hlookup : forall i,
    fold_left
      (fun onlineStatus syncModule =>
         if includes requested (BlinkSyncModule.network_id syncModule)
         then <[BlinkSyncModule.network_id syncModule :=
                  match BlinkSyncModule.status syncModule with
                  | BlinkSyncModule.online => true
                  | BlinkSyncModule.offline => false
                  end]> onlineStatus
         else onlineStatus)
      (SummaryResponse.sync_modules (selected_part s summary)) (∅ : gmap Z bool) !! i =
    (fun m => match BlinkSyncModule.status m with
              | BlinkSyncModule.online => true
              | BlinkSyncModule.offline => false
              end) <$>
      last_such
        (fun m => selected s (BlinkSyncModule.network_id m)
                  && (includes requested (BlinkSyncModule.network_id m)
                      && Z.eqb (BlinkSyncModule.network_id m) i))
        (SummaryResponse.sync_modules summary)).
  { intros i.
    rewrite (fold_insert_lookup
               (fun m => includes requested (BlinkSyncModule.network_id m))
               BlinkSyncModule.network_id
               (fun m => match BlinkSyncModule.status m with
                         | BlinkSyncModule.online => true
                         | BlinkSyncModule.offline => false
                         end)).
    cbn [selected_part SummaryResponse.sync_modules].
    rewrite last_such_filter, lookup_empty. by destruct (last_such _ _). }
  split; [exact Hlookup|].
  intros i Hi. rewrite Hlookup. unfold last_such.
  destruct (List.find _ _) as [m|] eqn:Hf; [|done].
  apply List.find_some in Hf as [_ Hm].
  apply andb_prop in Hm as [Hsel Hm]. apply andb_prop in Hm as [_ Heq].
  apply Z.eqb_eq in Heq. rewrite Heq in Hsel. congruence.
Qed.

(** *** Motion events *)

Lemma getLastMotions_answered s w videos rest :
  transport w = Ok2xx (VideoData videos) :: rest ->
  getLastMotions s w =
    fold motionStep ∅ videos s
      (pop_transport
         (log (Request GET
                 (BlinkUrls.videoUrl (urls s) +:+ "?since=" +:+ default_since
                    +:+ "&page=" +:+ Js.num_to_string 0)
                 (default ∅ (_authHeader s)) NoBody) w)).
Proof.
  intros Ht. unfold getLastMotions. unfold bind at 1. unfold getVideos.
  rewrite bind_this. unfold request_get.
  by rewrite (bind_request_answered _ _ _ _ _ _ _ _ _ Ht).
Qed.

Lemma fold_app {S A B} (f : B -> A -> M S B) (b : B) (l1 l2 : list A) (s : S) w :
  fold f b (l1 ++ l2) s w = bind (fold f b l1) (fun b' => fold f b' l2) s w.
Proof.
  revert b s w. induction l1 as [|x l1 IH]; intros b s w; [done|].
  cbn [fold app]. unfold bind in *.
  destruct (f b x s w) as [[b1| | |] s1 w1]; cbn [out obj env]; [|done..].
  apply IH.
Qed.

Lemma set_devices_same s : set_devices (_devices s) s = s.
Proof. by destruct s. Qed.

Lemma findDevice_known c (ds : list BlinkDevice.t) :
  c ∈ map BlinkDevice.id ds ->
  exists k d, findDevice c ds = Some (k, d).
Proof.
  intros Hc. apply list_elem_of_fmap in Hc as (d & -> & Hd).
  destruct (list_find_elem_of (fun x => BlinkDevice.id x = BlinkDevice.id d) ds d Hd eq_refl)
    as [[k d'] Hf].
  by exists k, d'.
Qed.

Lemma findDevice_insert_same c (ds : list BlinkDevice.t) k camera d' :
  findDevice c ds = Some (k, camera) ->
  BlinkDevice.id d' = c ->
  findDevice c (<[k := d']> ds) = Some (k, d').
Proof.
  intros Hf Hid. apply list_find_Some in Hf as (Hk & _ & Hbefore).
  apply list_find_Some. split_and!.
  - apply list_lookup_insert_eq. by eapply lookup_lt_Some.
  - done.
  - intros j y Hj Hlt. rewrite list_lookup_insert_ne in Hj by lia. by eapply Hbefore.
Qed.

Lemma findDevice_insert_other i (ds : list BlinkDevice.t) k k' d d' :
  findDevice i ds = Some (k', d) ->
  k <> k' ->
  BlinkDevice.id d' <> i ->
  findDevice i (<[k := d']> ds) = Some (k', d).
Proof.
  intros Hf Hk Hid. apply list_find_Some in Hf as (Hk' & Hd & Hbefore).
  apply list_find_Some. split_and!.
  - by rewrite list_lookup_insert_ne.
  - done.
  - intros j y Hj Hlt. destruct (decide (k = j)) as [->|Hne].
    + assert (Hlen : (j < length ds)%nat).
      { apply lookup_lt_Some in Hj. by rewrite length_insert in Hj. }
      rewrite list_lookup_insert_eq in Hj by done. by injection Hj as <-.
    + rewrite list_lookup_insert_ne in Hj by done. by eapply Hbefore.
Qed.

Lemma motionStep_known result video s w k camera :
  findDevice (VideoResponse.camera_id video) (_devices s) = Some (k, camera) ->
  motionStep result video s w =
    if is_motion video then
      {| out := Returned (<[VideoResponse.camera_id video := motionOf s video]> result);
         obj := set_devices
                  (<[k := BlinkDevice.set_motion (motionOf s video) camera]> (_devices s)) s;
         env := w |}
    else {| out := Returned result; obj := s; env := w |}.
Proof.
  intros Hf. unfold motionStep. rewrite bind_this, Hf. by destruct (is_motion video).
Qed.

Lemma motionStep_unknown result video s w :
  findDevice (VideoResponse.camera_id video) (_devices s) = None ->
  motionStep result video s w = throw (BlinkException "Camera not found") s w.
Proof. intros Hf. unfold motionStep. by rewrite bind_this, Hf. Qed.

Lemma motions_loop videos : forall result s w,
  (forall v, v ∈ videos -> VideoResponse.camera_id v ∈ map BlinkDevice.id (_devices s)) ->
  cached result (_devices s) ->
  exists result' ds',
    fold motionStep result videos s w =
      {| out := Returned result'; obj := set_devices ds' s; env := w |}
    /\ map BlinkDevice.id ds' = map BlinkDevice.id (_devices s)
    /\ (forall i,
          result' !! i =
            match last_such (fun v => is_motion v && Z.eqb (VideoResponse.camera_id v) i)
                    videos with
            | Some v => Some (motionOf s v)
            | None => result !! i
            end)
    /\ cached result' ds'.
Proof.
  induction videos as [|v videos IH] using rev_ind; intros result s w Hknown Hcached.
  - exists result, (_devices s). cbn [fold]. by rewrite set_devices_same.
  - destruct (IH result s w) as (result1 & ds1 & Hrun & Hids & Hlook & Hcached1);
      [intros v' Hv'; apply Hknown, elem_of_app; by left|done|].
    rewrite fold_app. unfold bind at 1. rewrite Hrun. cbn [out obj env fold].
    destruct (findDevice_known (VideoResponse.camera_id v) ds1) as (k & camera & Hf).
    { rewrite Hids. apply Hknown, elem_of_app. right. apply list_elem_of_here. }
    unfold bind.
    rewrite (motionStep_known result1 v (set_devices ds1 s) w k camera) by exact Hf.
    unfold last_such in *. rewrite rev_app_distr. cbn [rev app List.find].
    pose proof Hf as Hf'. apply list_find_Some in Hf' as (Hk & Hid & _).
    destruct (is_motion v) eqn:Hm; cbn [andb out obj env ret].
    + set (ev := motionOf (set_devices ds1 s) v).
      assert (Hev : ev = motionOf s v) by done.
      exists (<[VideoResponse.camera_id v := ev]> result1),
             (<[k := BlinkDevice.set_motion ev camera]> ds1).
      split_and!.
      * done.
      * rewrite list_fmap_insert, <- Hids. apply list_insert_id.
        rewrite list_lookup_fmap, Hk. done.
      * intros i. destruct (Z.eqb_spec (VideoResponse.camera_id v) i) as [<-|Hne].
        -- by rewrite lookup_insert_eq, Hev.
        -- rewrite lookup_insert_ne by done. apply Hlook.
      * intros i ev' Hi. destruct (decide (VideoResponse.camera_id v = i)) as [<-|Hne].
        -- rewrite lookup_insert_eq in Hi. injection Hi as <-.
           exists k, (BlinkDevice.set_motion ev camera). split; [|done].
           by apply (findDevice_insert_same _ _ _ camera).
        -- rewrite lookup_insert_ne in Hi by done.
           destruct (Hcached1 i ev' Hi) as (k' & d & Hfd & Hmo).
           exists k', d. split; [|done].
           apply findDevice_insert_other; [done| |].
           ++ intros ->. apply list_find_Some in Hfd as (Hk' & Hid' & _).
              rewrite Hk in Hk'. injection Hk' as <-.
              cbv beta in Hid, Hid'. congruence.
           ++ cbv beta in Hid. change (BlinkDevice.id camera <> i). congruence.
    + exists result1, ds1. split_and!; done.
Qed.

(** X13: When every video belongs to a known device, getLastMotions
    returns, per camera id, the event of its last video of type 'motion'
    in the answer, stores that same event in the device record
    (device.motion), and keeps the ids of the device array as they were. *)
Theorem getLastMotions_caches s w videos rest :
  transport w = Ok2xx (VideoData videos) :: rest ->
  (forall v, v ∈ videos -> VideoResponse.camera_id v ∈ map BlinkDevice.id (_devices s)) ->
  exists result,
    out (getLastMotions s w) = Returned result
    /\ (forall i,
          result !! i =
            motionOf s <$>
              last_such (fun v => is_motion v && Z.eqb (VideoResponse.camera_id v) i) videos)
    /\ map BlinkDevice.id (_devices (obj (getLastMotions s w))) = map BlinkDevice.id (_devices s)
    /\ (forall i ev,
          result !! i = Some ev ->
          exists k d,
            findDevice i (_devices (obj (getLastMotions s w))) = Some (k, d)
            /\ BlinkDevice.motion d = Some ev).
Proof.
  intros Ht Hknown. rewrite (getLastMotions_answered s w videos rest Ht).
  match goal with |- context [fold motionStep ∅ videos s ?w1] =>
    destruct (motions_loop videos ∅ s w1 Hknown) as (result & ds' & Hrun & Hids & Hlook & Hc) end.
  { intros i ev Hi. by rewrite lookup_empty in Hi. }
  rewrite Hrun. cbn [out obj env _devices set_devices].
  exists result. split_and!; try done.
Qed.

(** X14: getLastMotions throws BlinkException 'Camera not found' at the
    first video whose camera is not in the device array, whatever the type
    of the video. *)
Theorem getLastMotions_unknown_camera s w pre video post rest :
  transport w = Ok2xx (VideoData (pre ++ video :: post)) :: rest ->
  (forall v, v ∈ pre -> VideoResponse.camera_id v ∈ map BlinkDevice.id (_devices s)) ->
  VideoResponse.camera_id video ∉ map BlinkDevice.id (_devices s) ->
  out (getLastMotions s w) = Thrown (BlinkException "Camera not found").
Proof.
  intros Ht Hknown Hunknown. rewrite (getLastMotions_answered s w _ rest Ht).
  rewrite fold_app. unfold bind at 1.
  match goal with |- context [fold motionStep ∅ pre s ?w1] =>
    destruct (motions_loop pre ∅ s w1 Hknown) as (result & ds' & Hrun & Hids & _) end.
  { intros i ev Hi. by rewrite lookup_empty in Hi. }
  rewrite Hrun. cbn [out obj env fold]. unfold bind.
  destruct (findDevice (VideoResponse.camera_id video) ds') as [[k d]|] eqn:Hf;
    [|by rewrite motionStep_unknown].
  exfalso. apply Hunknown. rewrite <- Hids.
  apply list_find_Some in Hf as (Hk & Hid & _).
  rewrite <- Hid. apply list_elem_of_fmap_2. by eapply list_elem_of_lookup_2.
Qed.

(** *** Discovery *)

Lemma replace_device_ids d (ds : list BlinkDevice.t) i :
  i ∈ map BlinkDevice.id (replace_device d ds)
  <-> i ∈ map BlinkDevice.id ds \/ i = BlinkDevice.id d.
Proof.
  destruct (findDevice (BlinkDevice.id d) ds) as [[k x]|] eqn:Hf.
  - rewrite (Spec.replace_device_ids_found d ds k x Hf).
    apply list_find_Some in Hf as (Hk & Hid & _). split; [by left|].
    intros [Hi| ->]; [done|]. cbv beta in Hid. rewrite <- Hid.
    apply list_elem_of_fmap_2. by eapply list_elem_of_lookup_2.
  - unfold replace_device. rewrite Hf, map_app, elem_of_app. cbn [map].
    by rewrite list_elem_of_singleton.
Qed.

Lemma discover_ids s descriptors (ds : list BlinkDevice.t) i :
  i ∈ map BlinkDevice.id (discover s descriptors ds)
  <-> i ∈ map BlinkDevice.id ds \/ i ∈ map BlinkDeviceResponse.id descriptors.
Proof.
  revert ds. induction descriptors as [|d l IH]; intros ds.
  - cbn. rewrite elem_of_nil. tauto.
  - cbn [discover fold_left map]. change (fold_left _ l ?x) with (discover s l x).
    rewrite IH, replace_device_ids, Spec.record_of_id, elem_of_cons. tauto.
Qed.

(** X15: After an answered getCameras, the ids in the device array are the
    ids there before together with the ids of the cameras and owls of
    selected networks in the summary; a device whose id the summary does
    not mention is kept as it was; the array returned is the controller's. *)
Theorem getCameras_ids s w hs account_id summary rest :
  _authHeader s = Some hs ->
  transport w = Ok2xx (HomeData account_id summary) :: rest ->
  let r := getCameras s w in
  out r = Returned (_devices (obj r))
  /\ (forall i,
        i ∈ map BlinkDevice.id (_devices (obj r))
        <-> i ∈ map BlinkDevice.id (_devices s)
            \/ i ∈ map BlinkDeviceResponse.id (selected_devices s summary))
  /\ (forall d,
        d ∈ _devices s ->
        BlinkDevice.id d ∉ map BlinkDeviceResponse.id (selected_devices s summary) ->
        d ∈ _devices (obj r)).
Proof.
  intros Hh Ht r.
  destruct (Spec.getCameras_answered s w hs _ _ _ Hh Ht) as (s' & Hrun & Hd & _).
  subst r. rewrite Hrun. cbn [out obj env]. rewrite Hd. split_and!.
  - done.
  - intros i. apply discover_ids.
  - intros d Hin Hfresh. apply Spec.discover_keeps; [done|].
    intros d' Hd' Heq. apply Hfresh. rewrite <- Heq. by apply list_elem_of_fmap_2.
Qed.

(** X16: A call of getCameras that does not return leaves every field of
    the controller, the device array included, as it was. *)
Theorem getCameras_failure_leaves_controller s w :
  (forall ds, out (getCameras s w) <> Returned ds) ->
  obj (getCameras s w) = s.
Proof.
  intros Hout. remember (getCameras s w) as r eqn:Hr.
  unfold getCameras in Hr. unfold bind at 1 in Hr.
  pose proof (getSummary_obj s w) as Hobj.
  destruct (getSummary s w) as [[summaries| | |] s1 w1]; cbn [out obj env] in *;
    subst s1; try (by subst r).
  exfalso.
  match type of Hr with context [bind (forEach addDevice ?l) _ s w1] =>
    destruct (Spec.forEach_addDevice l s w1) as (s' & Hrun & _) end.
  unfold bind at 1 in Hr. rewrite Hrun in Hr. cbn [out obj env] in Hr.
  rewrite bind_this in Hr. subst r. by apply (Hout (_devices s')).
Qed.

(** *** Setup *)

Lemma getCameras_requests s w :
  exists later,
    trace (env (getCameras s w)) = (trace w ++ later)%list /\ Forall is_get later.
Proof.
  unfold getCameras. unfold bind at 1. unfold getSummary. rewrite bind_this.
  destruct (_authHeader s) as [hs|]; [|exists []; cbn; by rewrite app_nil_r].
  unfold request_get.
  exists [Request GET (BlinkUrls.homeUrl (urls s)) hs NoBody].
  split; [|repeat constructor; by eexists _, _].
  destruct (transport w) as [|a rest] eqn:Ht.
  - unfold bind. by rewrite (request_pending _ _ _ _ _ _ Ht).
  - rewrite (bind_request_answered _ _ _ _ _ _ _ _ _ Ht).
    destruct a as [[r|account_id data|vs|raw]|err]; try done.
    cbn [ret out obj env].
    match goal with |- context [bind (forEach addDevice ?l) _ s ?w1] =>
      destruct (Spec.forEach_addDevice l s w1) as (s' & Hrun & _) end.
    unfold bind at 1. by rewrite Hrun.
Qed.

(** X17: When a token is set, init sends GET requests only and asks
    nothing on the terminal: the credentials are never posted, whatever
    the answers. *)
Theorem init_with_token_only_reads fuel name_or_id s w :
  Js.opt_truthy (_token s) = true ->
  exists later,
    trace (env (init fuel name_or_id s w)) = (trace w ++ later)%list
    /\ Forall is_get later
    /\ stdin (env (init fuel name_or_id s w)) = stdin w.
Proof.
  intros Htok. remember (init fuel name_or_id s w) as r eqn:Hr.
  unfold init in Hr. rewrite bind_this, Htok in Hr.
  destruct (negb _); [exists []; subst r; cbn; by rewrite app_nil_r|].
  unfold bind at 1 in Hr. rewrite Spec._setupWithToken_spec in Hr. cbn [out obj env] in Hr.
  set (s1 := set_urls _ _) in Hr.
  pose proof (Spec.getIDs_trace name_or_id s1 w _ eq_refl) as Htr.
  assert (Hstdin : stdin (env (getIDs name_or_id s1 w)) = stdin w).
  { unfold getIDs. rewrite bind_this. cbn [s1 _authHeader set_urls set_authHeader].
    unfold request_get. destruct (transport w) as [|a rest] eqn:Ht.
    - unfold bind. by rewrite (request_pending _ _ _ _ _ _ Ht).
    - rewrite (bind_request_answered _ _ _ _ _ _ _ _ _ Ht).
      destruct a as [[x|account_id data|vs|raw]|err]; try done.
      destruct name_or_id;
        try (unfold bind at 1 2; rewrite Spec.getIDs_loop; cbn [out obj env];
             by destruct (existsb _ _)).
      by destruct (SummaryResponse.networks data). }
  unfold bind at 1 in Hr.
  destruct (getIDs name_or_id s1 w) as [[[]| | |] s2 w2]; cbn [out obj env] in *;
    try (eexists; subst r; cbn [env]; split; [exact Htr|];
         split; [repeat constructor; by eexists _, _|done]).
  unfold bind at 1 in Hr.
  destruct (getCameras_requests s2 w2) as (later & Hlater & Hget).
  assert (Hstdin2 : stdin (env (getCameras s2 w2)) = stdin w2).
  { unfold getCameras. unfold bind at 1.
    pose proof (getSummary_obj s2 w2) as Hobj.
    assert (Hs : stdin (env (getSummary s2 w2)) = stdin w2).
    { unfold getSummary. rewrite bind_this. destruct (_authHeader s2); [|done].
      unfold request_get, bind, request. cbn [log transport].
      by destruct (transport w2) as [|[[]|] ?]. }
    destruct (getSummary s2 w2) as [[summaries| | |] s3 w3]; cbn [out obj env] in *; try done.
    match goal with |- context [bind (forEach addDevice ?l) _ s3 w3] =>
      destruct (Spec.forEach_addDevice l s3 w3) as (s' & Hrun & _) end.
    unfold bind at 1. by rewrite Hrun. }
  exists (Request GET (BlinkUrls.homeUrl (urls s1)) (token_header (_token s)) NoBody :: later).
  subst r.
  destruct (getCameras s2 w2) as [[ds| | |] s3 w3]; cbn [out obj env ret] in *;
    (split; [by rewrite Hlater, Htr, <- app_assoc|];
     split; [constructor; [by eexists _, _|done]|congruence]).
Qed.

Lemma forEach_addDevice_run descriptors s w :
  forEach addDevice descriptors s w =
    {| out := Returned tt;
       obj := set_devices (discover s descriptors (_devices s)) s;
       env := w |}.
Proof.
  revert s. induction descriptors as [|d l IH]; intros s; cbn [forEach].
  - cbn. by rewrite set_devices_same.
  - unfold bind. rewrite Spec.addDevice_spec. cbn [out obj env]. by rewrite IH.
Qed.

Lemma getCameras_run s w hs account_id summary rest :
  _authHeader s = Some hs ->
  transport w = Ok2xx (HomeData account_id summary) :: rest ->
  let ds := discover s (selected_devices s summary) (_devices s) in
  getCameras s w =
    {| out := Returned ds; obj := set_devices ds s;
       env := pop_transport (log (Request GET (BlinkUrls.homeUrl (urls s)) hs NoBody) w) |}.
Proof.
  intros Hh Ht ds. unfold getCameras. unfold bind at 1.
  rewrite (getSummary_answered s w hs account_id summary rest Hh Ht).
  cbn [out obj env]. unfold bind at 1. rewrite forEach_addDevice_run.
  cbn [out obj env]. by rewrite bind_this.
Qed.

(** [getIDs()] then [getCameras()], on an established session and two
    home documents. *)
Lemma discover_all s w hs account1 doc1 account2 doc2 rest :
  _authHeader s = Some hs ->
  transport w = Ok2xx (HomeData account1 doc1) :: Ok2xx (HomeData account2 doc2) :: rest ->
  SummaryResponse.networks doc1 <> [] ->
  let s1 := set_urls (createBlinkUrls (Some account1) (_regionId s))
              (set_accountId (Some account1)
                 (set_networks (SummaryResponse.networks doc1) s)) in
  exists w',
    bind (getIDs Js.VUndefined) (fun _ => bind getCameras (fun _ => ret tt)) s w =
      {| out := Returned tt;
         obj := set_devices (discover s1 (selected_devices s1 doc2) (_devices s)) s1;
         env := w' |}
    /\ transport w' = rest
    /\ stdin w' = stdin w
    /\ trace w' =
         (trace w ++
          [Request GET (BlinkUrls.homeUrl (urls s)) hs NoBody;
           Request GET (BlinkUrls.homeUrl (createBlinkUrls (Some account1) (_regionId s)))
             hs NoBody])%list.
Proof.
  intros Hh Ht Hnets s1. unfold bind at 1.
  rewrite (Spec.getIDs_answered Js.VUndefined s w hs account1 doc1 _ Hh Ht).
  destruct (SummaryResponse.networks doc1) as [|n nets] eqn:Hn; [done|].
  cbn [out obj env]. fold s1. set (w1 := pop_transport _).
  assert (Hh1 : _authHeader s1 = Some hs) by done.
  assert (Ht1 : transport w1 = Ok2xx (HomeData account2 doc2) :: rest).
  { subst w1. cbn. by rewrite Ht. }
  unfold bind at 1. rewrite (getCameras_run s1 w1 hs account2 doc2 rest Hh1 Ht1).
  cbn [out obj env ret]. eexists. split; [reflexivity|].
  subst w1. cbn. rewrite Ht. cbn. by rewrite <- app_assoc.
Qed.

(** X18: init() with a token and a region id, on two answered home
    documents of which the first has a network, returns with the token-
    auth header set, all networks of the first document selected, the
    account id and the URLs of the first document, and the devices
    discovered from the second; it sends exactly two GETs, the first to
    the home URL of the account id known before (null on a new
    controller), the second to that of the discovered account. *)
Theorem init_with_token fuel s w account1 doc1 account2 doc2 rest :
  Js.opt_truthy (_token s) = true ->
  Js.opt_truthy (_regionId s) = true ->
  transport w = Ok2xx (HomeData account1 doc1) :: Ok2xx (HomeData account2 doc2) :: rest ->
  SummaryResponse.networks doc1 <> [] ->
  exists s' w',
    init fuel Js.VUndefined s w = {| out := Returned tt; obj := s'; env := w' |}
    /\ _authHeader s' = Some (token_header (_token s))
    /\ _networks s' = SummaryResponse.networks doc1
    /\ _accountId s' = Some account1
    /\ urls s' = createBlinkUrls (Some account1) (_regionId s)
    /\ _devices s' = discover s' (selected_devices s' doc2) (_devices s)
    /\ transport w' = rest
    /\ trace w' =
         (trace w ++
          [Request GET (BlinkUrls.homeUrl (createBlinkUrls (_accountId s) (_regionId s)))
             (token_header (_token s)) NoBody;
           Request GET (BlinkUrls.homeUrl (createBlinkUrls (Some account1) (_regionId s)))
             (token_header (_token s)) NoBody])%list.
Proof.
  intros Htok Hreg Ht Hnets. unfold init. rewrite bind_this, Htok, Hreg, orb_true_r.
  cbn [negb andb]. unfold bind at 1. rewrite Spec._setupWithToken_spec. cbn [out obj env].
  set (s1 := set_urls _ _).
  destruct (discover_all s1 w (token_header (_token s)) account1 doc1 account2 doc2 rest
              eq_refl Ht Hnets) as (w' & Hrun & Ht' & _ & Htr).
  rewrite Hrun. eexists _, w'. split; [reflexivity|]. by split_and!.
Qed.

(** X19: init() without a token, with non-empty username and password, on
    an answered login (no verification, with region) and two answered home
    documents, returns with the token and header of the login, the tier as
    region id, all networks of the first document selected, and the
    devices discovered from the second, all three answers consumed. *)
Theorem init_with_credentials fuel s w username password deviceId
    account account1 doc1 account2 doc2 rest :
  _token s = None ->
  _username s = Js.VStr username -> Js.str_truthy username = true ->
  _password s = Js.VStr password -> Js.str_truthy password = true ->
  _deviceId s = Js.VStr deviceId ->
  transport w =
    Ok2xx (LoginData account) :: Ok2xx (HomeData account1 doc1)
      :: Ok2xx (HomeData account2 doc2) :: rest ->
  Session.verification_required account = false ->
  Js.opt_truthy (LoginResponse.region account) = true ->
  SummaryResponse.networks doc1 <> [] ->
  exists s' w',
    init (S fuel) Js.VUndefined s w = {| out := Returned tt; obj := s'; env := w' |}
    /\ _token s' = Some (LoginResponse.token account)
    /\ _authHeader s' = Some {[ "token-auth" := LoginResponse.token account ]}
    /\ _regionId s' = Some (LoginResponse.tier account)
    /\ _networks s' = SummaryResponse.networks doc1
    /\ _accountId s' = Some account1
    /\ urls s' = createBlinkUrls (Some account1) (Some (LoginResponse.tier account))
    /\ _devices s' = discover s' (selected_devices s' doc2) (_devices s)
    /\ transport w' = rest.
Proof.
  intros Htok Hu Hut Hp Hpt Hd Ht Hv Hreg Hnets.
  unfold init. rewrite bind_this, Htok, Hu, Hp. cbn [Js.truthy Js.opt_truthy].
  rewrite Hut, Hpt. cbn [andb orb negb]. unfold bind at 1 2.
  destruct (Spec.login_attempt fuel 0 s w _ _ _ _ _ Hu Hp Hd Ht)
    as (key & w1 & Ht1 & _ & _ & Hlogin).
  rewrite Hv, Hreg in Hlogin. cbn [negb] in Hlogin.
  rewrite SessionFacts.finalize_spec in Hlogin. rewrite Hlogin. cbn [out obj env ret].
  set (s1 := loggedIn account s).
  destruct (discover_all s1 w1 {[ "token-auth" := LoginResponse.token account ]}
              account1 doc1 account2 doc2 rest eq_refl Ht1 Hnets)
    as (w' & Hrun & Ht' & _ & _).
  rewrite Hrun. eexists _, w'. split; [reflexivity|]. by split_and!.
Qed.

(** *** Arming *)

Lemma send_all_trace {A} (jobs : list (PromiseAll.job A)) w :
  trace (PromiseAll.send_all jobs w) = (trace w ++ map PromiseAll.send jobs)%list
  /\ transport (PromiseAll.send_all jobs w) = transport w
  /\ stdin (PromiseAll.send_all jobs w) = stdin w.
Proof.
  unfold PromiseAll.send_all.
  revert w. induction jobs as [|j jobs IH]; intros w; cbn [fold_left map].
  - by rewrite app_nil_r.
  - destruct (IH (log (PromiseAll.send j) w)) as (-> & -> & ->).
    cbn [log trace transport stdin]. by rewrite <- app_assoc.
Qed.

Lemma setArmed_run value networkIds s w :
  let value' := default true value in
  let ids := requestedIds s networkIds in
  setArmed value networkIds s w =
    bind (PromiseAll.all (map (armJob value' s) ids))
      (fun results =>
         ret (fold_left
                (fun armed '(networkId, result) => <[networkId := result]> armed)
                (zip ids results) ∅)) s w.
Proof. unfold setArmed. by rewrite bind_this. Qed.

(** X20: setArmed posts one request per requested network id (the given
    ids, or all selected networks when none is given; 'arm' unless value
    is false), in order, to armUrl + id + '/state/arm|disarm' with an
    empty body, whether or not some of them fail; it takes one answer per
    request and never changes the controller. *)
Theorem setArmed_sends_every_request value networkIds s w :
  let r := setArmed value networkIds s w in
  trace (env r) =
    (trace w ++ map (armRequest (default true value) s) (requestedIds s networkIds))%list
  /\ transport (env r) = drop (length (requestedIds s networkIds)) (transport w)
  /\ obj r = s.
Proof.
  intros r. subst r. rewrite setArmed_run. unfold bind, PromiseAll.all. cbn [out obj env].
  set (jobs := map _ _).
  destruct (send_all_trace jobs w) as (Htr & Htp & _).
  assert (Hsend : map PromiseAll.send jobs
                  = map (armRequest (default true value) s) (requestedIds s networkIds)).
  { subst jobs. rewrite map_map. apply map_ext. intros i.
    unfold PromiseAll.send, armRequest. cbn. by destruct (default true value). }
  assert (Hlen : length jobs = length (requestedIds s networkIds)).
  { subst jobs. by rewrite length_map. }
  destruct (PromiseAll.settle jobs _); cbn [out obj env ret PromiseAll.take_answers
    trace transport]; by rewrite Htr, Htp, Hsend, Hlen.
Qed.

Lemma settle_all_ok value s ids datas rest :
  length datas = length ids ->
  PromiseAll.settle (map (armJob value s) ids) (map Ok2xx datas ++ rest) = Returned datas.
Proof.
  revert datas. induction ids as [|i ids IH]; intros [|d datas] Hlen; try done.
  cbn in *. rewrite IH; [done|lia].
Qed.


Lemma fold_insert_pairs {V} (l : list (Z * V)) (m0 : gmap Z V) i :
  fold_left (fun armed '(networkId, result) => <[networkId := result]> armed) l m0 !! i =
    match last_such (fun p => Z.eqb (fst p) i) l with
    | Some p => Some (snd p)
    | None => m0 !! i
    end.
Proof.
  unfold last_such. induction l as [|[j x] l IH] using rev_ind; [done|].
  rewrite fold_left_app, rev_app_distr. cbn [fold_left rev app List.find fst snd].
  destruct (Z.eqb_spec j i) as [<-|Hne].
  - by rewrite lookup_insert_eq.
  - by rewrite lookup_insert_ne.
Qed.

(** X21: When every request of setArmed is answered, the result maps each
    requested id to the data of its answer; an id requested twice gets the
    answer to its last request. *)
Theorem setArmed_result value networkIds s w datas rest :
  transport w = (map Ok2xx datas ++ rest)%list ->
  length datas = length (requestedIds s networkIds) ->
  exists armed,
    out (setArmed value networkIds s w) = Returned armed
    /\ (forall i,
          armed !! i =
            snd <$> last_such (fun p => Z.eqb (fst p) i)
                      (zip (requestedIds s networkIds) datas))
    /\ transport (env (setArmed value networkIds s w)) = rest.
Proof.
  intros Ht Hlen. rewrite setArmed_run. unfold bind, PromiseAll.all. cbn [out obj env].
  set (jobs := map _ _).
  destruct (send_all_trace jobs w) as (_ & Htp & _). rewrite Htp, Ht.
  subst jobs. rewrite settle_all_ok by done. cbn [out obj env ret].
  eexists. split_and!; [reflexivity| |].
  - intros i. rewrite fold_insert_pairs, lookup_empty. by destruct (last_such _ _).
  - cbn. rewrite Htp, Ht, length_map, <- Hlen, <- (length_map Ok2xx datas).
    by rewrite drop_app_length.
Qed.

End ControllerFacts.
End ControllerFacts.

(** ** The device record *)

Module DeviceFacts.
Import BlinkCameraSystem DeviceOps Views.

Lemma str_truthy_app a b :
  Js.str_truthy (a +:+ b) = Js.str_truthy a || Js.str_truthy b.
Proof. by destruct a. Qed.


Lemma new_imageLink data urls hdr :
  exists link,
    BlinkDevice._imageLink (BlinkDevice.new data urls hdr) = Some link
    /\ Js.str_truthy link = true.
Proof.
  unfold BlinkDevice.new. cbn [BlinkDevice._imageLink].
  destruct (String.eqb _ "owl"); [|destruct (String.eqb _ "doorbell")];
    eexists; (split; [reflexivity|]);
    rewrite !str_truthy_app; cbn; by rewrite !orb_true_r.
Qed.

(** X24: snapPicture throws 'Camera is not initialized' exactly when the
    image link is null or empty; a device built by the constructor, also
    after update, always has an image link, and snapPicture posts an empty
    body to it with the device's header. *)
Theorem snapPicture_guard d :
  (snapPicture d = Throws (BlinkException "Camera is not initialized")
   <-> Js.opt_truthy (BlinkDevice.imageLink d) = false)
  /\ forall data urls hdr values,
       exists link,
         BlinkDevice.imageLink (BlinkDevice.new data urls hdr) = Some link
         /\ snapPicture (BlinkDevice.update values (BlinkDevice.new data urls hdr)) =
              Sends {| method_ := POST; url := link; headers_ := hdr;
                       data := EmptyObject |}
                (passThrough "Can't get snapshot from camera " " / "
                   (BlinkDevice.update values (BlinkDevice.new data urls hdr))).
Proof.
  split.
  - unfold snapPicture, BlinkDevice.imageLink.
    destruct (BlinkDevice._imageLink d) as [link|]; cbn; [|done].
    by destruct (Js.str_truthy link).
  - intros data urls hdr values.
    destruct (new_imageLink data urls hdr) as (link & Hlink & Htruthy).
    exists link. split; [done|]. unfold snapPicture.
    cbn [BlinkDevice.update BlinkDevice._imageLink BlinkDevice._authHeader].
    rewrite Hlink, Htruthy. done.
Qed.

Lemma retouch_retouch c1 c2 d : retouch c2 (retouch c1 d) = retouch c2 d.
Proof. reflexivity. Qed.



(** *** [refresh] *)

Lemma refreshDevice_id summaries d :
  BlinkDevice.id (refreshDevice summaries d) = BlinkDevice.id d.
Proof.
  unfold refreshDevice.
  destruct (List.find _ (SummaryResponse.cameras summaries)) as [c|] eqn:Hc.
  - apply List.find_some in Hc as [_ Hc]. by apply Z.eqb_eq in Hc.
  - destruct (List.find _ (SummaryResponse.owls summaries)) as [o|] eqn:Ho; [|done].
    apply List.find_some in Ho as [_ Ho]. by apply Z.eqb_eq in Ho.
Qed.

(** X26: The update step of refresh keeps the ids and the order of the
    device array; a device in neither the cameras nor the owls of the
    summary is left as it was, and a device listed among the cameras is
    updated from its first camera entry. *)
Theorem refresh_keeps_the_device_set summaries (ds : list BlinkDevice.t) :
  map BlinkDevice.id (map (refreshDevice summaries) ds) = map BlinkDevice.id ds
  /\ (forall d,
        BlinkDevice.id d ∉ map BlinkDeviceResponse.id (SummaryResponse.cameras summaries) ->
        BlinkDevice.id d ∉ map BlinkDeviceResponse.id (SummaryResponse.owls summaries) ->
        refreshDevice summaries d = d)
  /\ (forall d pre camera post,
        SummaryResponse.cameras summaries = (pre ++ camera :: post)%list ->
        BlinkDeviceResponse.id camera = BlinkDevice.id d ->
        BlinkDevice.id d ∉ map BlinkDeviceResponse.id pre ->
        refreshDevice summaries d = BlinkDevice.update camera d).
Proof.
  split_and!.
  - rewrite map_map. apply map_ext. intros d. apply refreshDevice_id.
  - intros d Hc Ho. unfold refreshDevice.
    destruct (List.find _ (SummaryResponse.cameras summaries)) as [c|] eqn:Hfc.
    { apply List.find_some in Hfc as [Hin Heq]. apply Z.eqb_eq in Heq.
      destruct Hc. rewrite <- Heq. apply list_elem_of_fmap_2. by apply list_elem_of_In. }
    destruct (List.find _ (SummaryResponse.owls summaries)) as [o|] eqn:Hfo; [|done].
    apply List.find_some in Hfo as [Hin Heq]. apply Z.eqb_eq in Heq.
    destruct Ho. rewrite <- Heq. apply list_elem_of_fmap_2. by apply list_elem_of_In.
  - intros d pre camera post Hcams Hid Hpre. unfold refreshDevice. rewrite Hcams.
    assert (Hfind : List.find (fun c => Z.eqb (BlinkDeviceResponse.id c) (BlinkDevice.id d))
                      (pre ++ camera :: post) = Some camera).
    { clear Hcams. induction pre as [|c pre IH]; cbn.
      - by rewrite Hid, Z.eqb_refl.
      - destruct (Z.eqb_spec (BlinkDeviceResponse.id c) (BlinkDevice.id d)) as [Heq|Hne].
        + destruct Hpre. cbn. rewrite Heq. apply list_elem_of_here.
        + apply IH. intros Hin. apply Hpre. cbn. by apply list_elem_of_further. }
    by rewrite Hfind.
Qed.
End DeviceFacts.

(** ** Runs on sample data *)

Module Runs.
Import BlinkCameraSystem Promise DeviceSet DeviceOps Views.
Import UrlFacts SessionFacts ControllerFacts DeviceFacts.
#[local] Existing Instance Sample.constants.

Lemma createBlinkUrls_separates_accounts_witness :
  BlinkUrls.homeUrl (createBlinkUrls (Some 7) (Some "u001"))
  <> BlinkUrls.homeUrl (createBlinkUrls None (Some "u001")).
Proof.
  apply (createBlinkUrls_separates_accounts (Some 7) None (Some "u001")). discriminate.
Defined.

Lemma createBlinkUrls_separates_regions_witness :
  BlinkUrls.baseUrl (createBlinkUrls (Some 7) (Some "u001"))
  <> BlinkUrls.baseUrl (createBlinkUrls (Some 7) (Some "e001")).
Proof.
  apply (createBlinkUrls_separates_regions (Some 7) (Some 7) "u001" "e001"). discriminate.
Defined.

Lemma login_finalizes_session_witness :
  let r := _getAuthToken 1 0 (Sample.fresh false)
             (Sample.world [Ok2xx (LoginData login_ok)] []) in
  out r = Returned Js.VUndefined
  /\ _authHeader (obj r) = Some {[ "token-auth" := "tok" ]}
  /\ transport (env r) = [].
Proof.
  cbv zeta.
  destruct (login_finalizes_session 0 0 (Sample.fresh false)
              (Sample.world [Ok2xx (LoginData login_ok)] [])
              "user@example.com" "secret" "device-1" login_ok []
              eq_refl eq_refl eq_refl eq_refl eq_refl eq_refl)
    as (Hout & Hobj & Hrest & _).
  split_and!; [exact Hout|by rewrite Hobj|exact Hrest].
Defined.


Lemma pin_success_finalizes_witness :
  let r := _getAuthToken 1 0 (Sample.fresh true)
             (Sample.world [Ok2xx (LoginData Sample.login_needs_code);
                            Ok2xx (OtherData "{}")] ["123456"]) in
  out r = Returned (Js.VBool true)
  /\ _authHeader (obj r) = Some {[ "token-auth" := "tok" ]}
  /\ stdin (env r) = [].
Proof.
  cbv zeta.
  destruct (pin_success_finalizes 0 0 (Sample.fresh true)
              (Sample.world [Ok2xx (LoginData Sample.login_needs_code);
                             Ok2xx (OtherData "{}")] ["123456"])
              "user@example.com" "secret" "device-1" Sample.login_needs_code
              (OtherData "{}") [] "123456" []
              eq_refl eq_refl eq_refl eq_refl eq_refl eq_refl eq_refl)
    as (Hout & Hobj & _ & Hin & _).
  split_and!; [exact Hout|by rewrite Hobj|exact Hin].
Defined.

Lemma retry_then_login_witness :
  let r := _getAuthToken 2 0 (Sample.fresh false)
             (Sample.world [Ok2xx (LoginData Sample.login_needs_code);
                            Ok2xx (LoginData login_ok)] []) in
  out r = Returned Js.VUndefined /\ transport (env r) = [].
Proof.
  cbv zeta.
  destruct (retry_then_login 0 (Sample.fresh false)
              (Sample.world [Ok2xx (LoginData Sample.login_needs_code);
                             Ok2xx (LoginData login_ok)] [])
              "user@example.com" "secret" "device-1" Sample.login_needs_code login_ok []
              eq_refl eq_refl eq_refl eq_refl eq_refl eq_refl eq_refl eq_refl)
    as (Hout & _ & Hrest).
  exact (conj Hout Hrest).
Defined.

Lemma login_errors_witness :
  out (_getAuthToken 1 0 (Sample.fresh false)
         (Sample.world [Ok2xx (LoginData login_no_region)] []))
  = Thrown (BlinkAuthenticationException (Data (LoginData login_no_region))).
Proof.
  destruct (login_errors 0 0 (Sample.fresh false)
              (Sample.world [Ok2xx (LoginData login_no_region)] [])
              "user@example.com" "secret" "device-1"
              (Ok2xx (LoginData login_no_region)) []
              eq_refl eq_refl eq_refl eq_refl)
    as (_ & Hregion & _).
  exact (Hregion login_no_region eq_refl eq_refl eq_refl).
Defined.


Lemma isArmed_last_entry_witness :
  exists result,
    out (isArmed (Sample.established [Sample.home] [])
           (Sample.world [Ok2xx (HomeData 7 home_doc)] [])) = Returned result
    /\ result !! 1 = Some true /\ result !! 2 = None.
Proof.
  destruct (isArmed_last_entry (Sample.established [Sample.home] [])
              (Sample.world [Ok2xx (HomeData 7 home_doc)] [])
              (token_header (Some "tok")) 7 home_doc [] eq_refl eq_refl)
    as (result & Hout & Hlook).
  exists result. split_and!; [exact Hout|by rewrite Hlook..].
Defined.

Lemma isOnline_last_entry_witness :
  exists result,
    out (isOnline [] (Sample.established [Sample.home] [])
           (Sample.world [Ok2xx (HomeData 7 home_doc)] [])) = Returned result
    /\ result !! 1 = Some true /\ result !! 2 = None.
Proof.
  destruct (isOnline_last_entry [] (Sample.established [Sample.home] [])
              (Sample.world [Ok2xx (HomeData 7 home_doc)] [])
              (token_header (Some "tok")) 7 home_doc [] eq_refl eq_refl)
    as (result & Hout & Hlook & _).
  exists result. split_and!; [exact Hout|by rewrite Hlook..].
Defined.

Lemma getLastMotions_caches_witness :
  let r := getLastMotions (Sample.established [Sample.home] [Sample.camera5])
             (Sample.world [Ok2xx (VideoData [Sample.motion_video])] []) in
  exists result,
    out r = Returned result
    /\ map BlinkDevice.id (_devices (obj r)) = [5].
Proof.
  cbv zeta.
  destruct (getLastMotions_caches (Sample.established [Sample.home] [Sample.camera5])
              (Sample.world [Ok2xx (VideoData [Sample.motion_video])] [])
              [Sample.motion_video] [] eq_refl)
    as (result & Hout & _ & Hids & _).
  { intros v Hv. apply list_elem_of_singleton in Hv as ->. apply list_elem_of_here. }
  exists result. split; [exact Hout|exact Hids].
Defined.

Lemma getLastMotions_unknown_camera_witness :
  out (getLastMotions (Sample.established [Sample.home] [])
         (Sample.world [Ok2xx (VideoData [Sample.motion_video])] []))
  = Thrown (BlinkException "Camera not found").
Proof.
  apply (getLastMotions_unknown_camera (Sample.established [Sample.home] [])
           (Sample.world [Ok2xx (VideoData [Sample.motion_video])] [])
           [] Sample.motion_video [] [] eq_refl).
  - intros v Hv. by apply elem_of_nil in Hv.
  - apply not_elem_of_nil.
Defined.

Lemma getCameras_ids_witness :
  let r := getCameras (Sample.established [Sample.home] [])
             (Sample.world [Ok2xx (HomeData 7 home_doc)] []) in
  out r = Returned (_devices (obj r))
  /\ 5 ∈ map BlinkDevice.id (_devices (obj r))
  /\ 8 ∈ map BlinkDevice.id (_devices (obj r))
  /\ 6 ∉ map BlinkDevice.id (_devices (obj r)).
Proof.
  cbv zeta.
  destruct (getCameras_ids (Sample.established [Sample.home] [])
              (Sample.world [Ok2xx (HomeData 7 home_doc)] [])
              (token_header (Some "tok")) 7 home_doc [] eq_refl eq_refl)
    as (Hout & Hids & _).
  split_and!; [exact Hout|apply Hids; right; vm_compute..|rewrite Hids; vm_compute].
  - apply list_elem_of_here.
  - apply list_elem_of_further, list_elem_of_here.
  - intros [Hin|Hin]; [by apply elem_of_nil in Hin|].
    repeat (apply elem_of_cons in Hin as [Hin|Hin]; [discriminate Hin|]).
    by apply elem_of_nil in Hin.
Defined.

Lemma getCameras_failure_leaves_controller_witness :
  obj (getCameras (Sample.established [Sample.home] [Sample.camera5])
         (Sample.world [Failure None] []))
  = Sample.established [Sample.home] [Sample.camera5].
Proof.
  apply (getCameras_failure_leaves_controller
           (Sample.established [Sample.home] [Sample.camera5])
           (Sample.world [Failure None] [])).
  intros ds Hout. vm_compute in Hout. discriminate Hout.
Defined.

Lemma init_with_token_only_reads_witness :
  exists later,
    trace (env (init 1 Js.VUndefined Sample.resumed
                  (Sample.world [Ok2xx (HomeData 7 home_doc)] []))) = later
    /\ Forall is_get later.
Proof.
  destruct (init_with_token_only_reads 1 Js.VUndefined Sample.resumed
              (Sample.world [Ok2xx (HomeData 7 home_doc)] []) eq_refl)
    as (later & Htrace & Hget & _).
  exists later. split; [exact Htrace|exact Hget].
Defined.

Lemma init_with_token_witness :
  exists s' w',
    init 1 Js.VUndefined Sample.resumed
      (Sample.world [Ok2xx (HomeData 7 home_doc); Ok2xx (HomeData 7 home_doc)] [])
    = {| out := Returned tt; obj := s'; env := w' |}
    /\ _networks s' = [Sample.home; Sample.cabin]
    /\ _accountId s' = Some 7
    /\ transport w' = [].
Proof.
  destruct (init_with_token 1 Sample.resumed
              (Sample.world [Ok2xx (HomeData 7 home_doc); Ok2xx (HomeData 7 home_doc)] [])
              7 home_doc 7 home_doc [] eq_refl eq_refl eq_refl)
    as (s' & w' & Hrun & _ & Hnets & Hacc & _ & _ & Hrest & _); [discriminate|].
  exists s', w'. split_and!; [exact Hrun|exact Hnets|exact Hacc|exact Hrest].
Defined.

Lemma init_with_credentials_witness :
  exists s' w',
    init 1 Js.VUndefined (Sample.fresh false)
      (Sample.world [Ok2xx (LoginData login_ok); Ok2xx (HomeData 7 home_doc);
                     Ok2xx (HomeData 7 home_doc)] [])
    = {| out := Returned tt; obj := s'; env := w' |}
    /\ _token s' = Some "tok"
    /\ _networks s' = [Sample.home; Sample.cabin]
    /\ transport w' = [].
Proof.
  destruct (init_with_credentials 0 (Sample.fresh false)
              (Sample.world [Ok2xx (LoginData login_ok); Ok2xx (HomeData 7 home_doc);
                             Ok2xx (HomeData 7 home_doc)] [])
              "user@example.com" "secret" "device-1" login_ok 7 home_doc 7 home_doc []
              eq_refl eq_refl eq_refl eq_refl eq_refl eq_refl eq_refl eq_refl eq_refl)
    as (s' & w' & Hrun & Htok & _ & _ & Hnets & _ & _ & _ & Hrest); [discriminate|].
  exists s', w'. split_and!; [exact Hrun|exact Htok|exact Hnets|exact Hrest].
Defined.

Lemma setArmed_result_witness :
  exists armed,
    out (setArmed (Some true) [] (Sample.established [Sample.home; Sample.cabin] [])
           (Sample.world [Ok2xx (OtherData "true"); Ok2xx (OtherData "false")] []))
    = Returned armed
    /\ armed !! 1 = Some (OtherData "true")
    /\ armed !! 2 = Some (OtherData "false").
Proof.
  destruct (setArmed_result (Some true) []
              (Sample.established [Sample.home; Sample.cabin] [])
              (Sample.world [Ok2xx (OtherData "true"); Ok2xx (OtherData "false")] [])
              [OtherData "true"; OtherData "false"] [] eq_refl eq_refl)
    as (armed & Hout & Hlook & _).
  exists armed. split_and!; [exact Hout|by rewrite Hlook..].
Defined.


End Runs.
